(** * GOC Visualiser: drawing surface, analysis request builder, controller
      and document export, embedded from the TypeScript sources.

    - [src/types.ts]                     : [EducationLevel], [ChemicalData]
    - [src/services/gemini.ts]           : [analyzeChemicalStructure]
    - [src/components/DrawingCanvas.tsx] : the [DrawingCanvas] component and
                                           [handleDownloadPDF] of [ResultCard]
    - the application component          : [handleAnalysis] and the wiring of
                                           [isProcessing] into the canvas

    JavaScript strings are modelled as [string] (their UTF-8 bytes), [null]
    and [undefined] as [None], the sizes and pixel positions of a bitmap as
    [N], pointer coordinates as [Z], and the millimetre arithmetic of the
    PDF export as exact rationals [Q]: the subtractions of the export stay
    on the grid of the image height, where doubles are exact. *)

From Stdlib Require Import Strings.String Strings.Ascii.
From Stdlib Require Import Lists.List.
From Stdlib Require Import Bool.Bool.
From Stdlib Require Import ZArith.ZArith.
From Stdlib Require Import QArith.QArith QArith.Qminmax.
From Stdlib Require Import micromega.Lia micromega.Lqa.
Import ListNotations.

Local Close Scope Q_scope.
Local Open Scope string_scope.

(* ===================================================================== *)
(** ** The JavaScript string operations the sources call                  *)
(* ===================================================================== *)

Module JS.

(** The double quote character, and line feed. *)
Definition dq : string := String "034"%char EmptyString.
Definition lf : string := String "010"%char EmptyString.

(** Truthiness of a [string | null] value: [null] and the empty string
    are falsy, every other string is truthy. *)
Definition truthy (v : option string) : bool :=
  match v with
  | None => false
  | Some EmptyString => false
  | Some (String _ _) => true
  end.

(** [s.startsWith(p)]. *)
Fixpoint startsWith (p s : string) : bool :=
  match p, s with
  | EmptyString, _ => true
  | String a p', String b s' => Ascii.eqb a b && startsWith p' s'
  | String _ _, EmptyString => false
  end.

(** [s.includes(p)]: [p] occurs at some position of [s]. *)
Fixpoint includes (p s : string) : bool :=
  startsWith p s ||
  match s with
  | EmptyString => false
  | String _ s' => includes p s'
  end.

(** [x || y] on strings where [x] may be [undefined]. *)
Definition or_else (x : option string) (y : string) : string :=
  match x with
  | Some (String a s) => String a s
  | _ => y
  end.

(** Drops [n] leading bytes. *)
Fixpoint drop (n : nat) (s : string) : string :=
  match n, s with
  | O, _ => s
  | S n', String _ s' => drop n' s'
  | S _, EmptyString => EmptyString
  end.

(** White space as [String.prototype.trim] sees it (WhiteSpace and
    LineTerminator of ECMAScript), listed by UTF-8 encoding. *)
Definition whiteSpace : list string :=
  [ String "009"%char EmptyString; String "010"%char EmptyString;
    String "011"%char EmptyString; String "012"%char EmptyString;
    String "013"%char EmptyString; String "032"%char EmptyString;
    String "194"%char (String "160"%char EmptyString);
    String "225"%char (String "154"%char (String "128"%char EmptyString));
    String "226"%char (String "128"%char (String "128"%char EmptyString));
    String "226"%char (String "128"%char (String "129"%char EmptyString));
    String "226"%char (String "128"%char (String "130"%char EmptyString));
    String "226"%char (String "128"%char (String "131"%char EmptyString));
    String "226"%char (String "128"%char (String "132"%char EmptyString));
    String "226"%char (String "128"%char (String "133"%char EmptyString));
    String "226"%char (String "128"%char (String "134"%char EmptyString));
    String "226"%char (String "128"%char (String "135"%char EmptyString));
    String "226"%char (String "128"%char (String "136"%char EmptyString));
    String "226"%char (String "128"%char (String "137"%char EmptyString));
    String "226"%char (String "128"%char (String "138"%char EmptyString));
    String "226"%char (String "128"%char (String "168"%char EmptyString));
    String "226"%char (String "128"%char (String "169"%char EmptyString));
    String "226"%char (String "128"%char (String "175"%char EmptyString));
    String "226"%char (String "129"%char (String "159"%char EmptyString));
    String "227"%char (String "128"%char (String "128"%char EmptyString));
    String "239"%char (String "187"%char (String "191"%char EmptyString)) ].

(** Length of the white space character [s] starts with, if any. *)
Definition leadingSpace (s : string) : option nat :=
  option_map String.length (find (fun w => startsWith w s) whiteSpace).

Fixpoint trimStart_fuel (fuel : nat) (s : string) : string :=
  match fuel with
  | O => s
  | S f =>
      match leadingSpace s with
      | Some n => trimStart_fuel f (drop n s)
      | None => s
      end
  end.

(** [s.trimStart()]: at most [length s] characters can be removed. *)
Definition trimStart (s : string) : string :=
  trimStart_fuel (String.length s) s.

Fixpoint rev_acc (s acc : string) : string :=
  match s with
  | EmptyString => acc
  | String a s' => rev_acc s' (String a acc)
  end.

Definition rev (s : string) : string := rev_acc s EmptyString.

(** Length of the white space character [r] starts with, [r] being a
    reversed string. *)
Definition trailingSpace (r : string) : option nat :=
  option_map String.length (find (fun w => startsWith (rev w) r) whiteSpace).

Fixpoint trimEnd_fuel (fuel : nat) (r : string) : string :=
  match fuel with
  | O => r
  | S f =>
      match trailingSpace r with
      | Some n => trimEnd_fuel f (drop n r)
      | None => r
      end
  end.

(** [s.trimEnd()]. *)
Definition trimEnd (s : string) : string :=
  rev (trimEnd_fuel (String.length s) (rev s)).

(** [s.trim()]. *)
Definition trim (s : string) : string := trimEnd (trimStart s).

(** [\w] of a regular expression without flags. *)
Definition isWordChar (c : ascii) : bool :=
  let n := nat_of_ascii c in
  (((48 <=? n) && (n <=? 57)) || ((65 <=? n) && (n <=? 90))
   || ((97 <=? n) && (n <=? 122)) || (n =? 95))%nat.

Fixpoint dropWhile (f : ascii -> bool) (s : string) : string :=
  match s with
  | EmptyString => EmptyString
  | String a s' => if f a then dropWhile f s' else s
  end.

End JS.

(* ===================================================================== *)
(** ** JSON values and [JSON.parse]                                       *)
(* ===================================================================== *)

Module JSON.

(** What [JSON.parse] builds.  A number keeps its lexeme; an object keeps
    its members in insertion order, one entry per key. *)
#[warnings="-register-all"] Inductive value : Type :=
| Null
| Bool (b : bool)
| Number (lexeme : string)
| Str (s : string)
| Array (elements : list value)
| Object (members : list (string * value)).

(** Property assignment [o[k] = v]: overwrites an existing key in place,
    appends a new one. *)
Fixpoint set (k : string) (v : value) (o : list (string * value))
  : list (string * value) :=
  match o with
  | [] => [(k, v)]
  | (k', v') :: o' =>
      if String.eqb k k' then (k, v) :: o' else (k', v') :: set k v o'
  end.

(** Property read [o[k]]; [None] is [undefined]. *)
Fixpoint get (k : string) (o : list (string * value)) : option value :=
  match o with
  | [] => None
  | (k', v) :: o' => if String.eqb k k' then Some v else get k o'
  end.

(** [v.k] on any value: only objects have members. *)
Definition field (k : string) (v : value) : option value :=
  match v with
  | Object o => get k o
  | _ => None
  end.

Definition isWs (c : ascii) : bool :=
  let n := nat_of_ascii c in
  ((n =? 32) || (n =? 9) || (n =? 10) || (n =? 13))%nat.

Definition skipWs (s : string) : string := JS.dropWhile isWs s.

Definition isDigit (c : ascii) : bool :=
  let n := nat_of_ascii c in ((48 <=? n) && (n <=? 57))%nat.

Definition hexVal (c : ascii) : option nat :=
  let n := nat_of_ascii c in
  if ((48 <=? n) && (n <=? 57))%nat then Some (n - 48)%nat
  else if ((65 <=? n) && (n <=? 70))%nat then Some (n - 55)%nat
  else if ((97 <=? n) && (n <=? 102))%nat then Some (n - 87)%nat
  else None.

Definition byte (n : nat) : string := String (ascii_of_nat n) EmptyString.

(** UTF-8 bytes of the code unit [n] of a [\uXXXX] escape. *)
Definition utf8 (n : nat) : string :=
  (if n <? 128 then byte n
   else if n <? 2048 then byte (192 + n / 64) ++ byte (128 + n mod 64)
   else byte (224 + n / 4096) ++ byte (128 + (n / 64) mod 64)
          ++ byte (128 + n mod 64))%nat.

Definition hex4 (a b c d : ascii) : option nat :=
  match hexVal a, hexVal b, hexVal c, hexVal d with
  | Some x, Some y, Some z, Some w =>
      Some (((x * 16 + y) * 16 + z) * 16 + w)%nat
  | _, _, _, _ => None
  end.

(** The characters of a string literal after its opening quote: returns
    the decoded string and what follows the closing quote. *)
Fixpoint stringBody (s : string) : option (string * string) :=
  match s with
  | EmptyString => None
  | String c rest =>
      if Ascii.eqb c "034" then Some (EmptyString, rest)
      else if Ascii.eqb c "092" then
        match rest with
        | String e rest' =>
            let continue (decoded : string) (r : string) :=
              match stringBody r with
              | Some (body, after) => Some (decoded ++ body, after)
              | None => None
              end in
            if Ascii.eqb e "034" then continue JS.dq rest'
            else if Ascii.eqb e "092" then continue (byte 92) rest'
            else if Ascii.eqb e "/" then continue "/" rest'
            else if Ascii.eqb e "b" then continue (byte 8) rest'
            else if Ascii.eqb e "f" then continue (byte 12) rest'
            else if Ascii.eqb e "n" then continue (byte 10) rest'
            else if Ascii.eqb e "r" then continue (byte 13) rest'
            else if Ascii.eqb e "t" then continue (byte 9) rest'
            else if Ascii.eqb e "u" then
              match rest' with
              | String h1 (String h2 (String h3 (String h4 r))) =>
                  match hex4 h1 h2 h3 h4 with
                  | Some n =>
                      match stringBody r with
                      | Some (body, after) => Some (utf8 n ++ body, after)
                      | None => None
                      end
                  | None => None
                  end
              | _ => None
              end
            else None
        | EmptyString => None
        end
      else if (nat_of_ascii c <? 32)%nat then None
      else
        match stringBody rest with
        | Some (body, after) => Some (String c body, after)
        | None => None
        end
  end.

(** Splits off the longest run of digits. *)
Fixpoint digits (s : string) : string * string :=
  match s with
  | EmptyString => (EmptyString, EmptyString)
  | String c rest =>
      if isDigit c then let (d, r) := digits rest in (String c d, r)
      else (EmptyString, s)
  end.

(** A number lexeme: an optional minus sign; an integer part that is a
    single zero or starts with a nonzero digit; an optional fraction (a dot
    and at least one digit); an optional exponent (e or E, an optional
    sign, at least one digit). *)
Definition number (s : string) : option (string * string) :=
  let (sign, s1) :=
    match s with
    | String "-" r => ("-", r)
    | _ => (EmptyString, s)
    end in
  let int :=
    match s1 with
    | String "0" r => Some ("0", r)
    | _ => match digits s1 with
           | (EmptyString, _) => None
           | (d, r) => Some (d, r)
           end
    end in
  match int with
  | None => None
  | Some (i, s2) =>
      let frac :=
        match s2 with
        | String "." r =>
            match digits r with
            | (EmptyString, _) => None
            | (d, r') => Some ("." ++ d, r')
            end
        | _ => Some (EmptyString, s2)
        end in
      match frac with
      | None => None
      | Some (f, s3) =>
          let exponent (e : string) (r : string) :=
            let (sg, r1) :=
              match r with
              | String "+" r' => ("+", r')
              | String "-" r' => ("-", r')
              | _ => (EmptyString, r)
              end in
            match digits r1 with
            | (EmptyString, _) => None
            | (d, r') => Some (e ++ sg ++ d, r')
            end in
          let exp :=
            match s3 with
            | String "e" r => exponent "e" r
            | String "E" r => exponent "E" r
            | _ => Some (EmptyString, s3)
            end in
          match exp with
          | None => None
          | Some (x, s4) => Some (sign ++ i ++ f ++ x, s4)
          end
      end
  end.

Definition literal (word : string) (v : value) (s : string)
  : option (value * string) :=
  if JS.startsWith word s then Some (v, JS.drop (String.length word) s)
  else None.

(** One JSON value at the head of [s] (after white space), with the rest
    of the input.  [elements] and [members] read what follows the first
    element of an array and the first member of an object.  The fuel
    bounds the number of nested and successive values; every value and
    every separator consumes a character. *)
Fixpoint parseValue (fuel : nat) (s : string) {struct fuel}
  : option (value * string) :=
  match fuel with
  | O => None
  | S f =>
      match skipWs s with
      | EmptyString => None
      | String c rest =>
          if Ascii.eqb c "{" then
            match skipWs rest with
            | String "}" after => Some (Object [], after)
            | String "034" body =>
                match stringBody body with
                | Some (k, r) =>
                    match skipWs r with
                    | String ":" r' =>
                        match parseValue f r' with
                        | Some (v, r'') => members f [(k, v)] r''
                        | None => None
                        end
                    | _ => None
                    end
                | None => None
                end
            | _ => None
            end
          else if Ascii.eqb c "[" then
            match skipWs rest with
            | String "]" after => Some (Array [], after)
            | _ =>
                match parseValue f rest with
                | Some (v, r) => elements f [v] r
                | None => None
                end
            end
          else if Ascii.eqb c "034" then
            match stringBody rest with
            | Some (str, r) => Some (Str str, r)
            | None => None
            end
          else if Ascii.eqb c "t" then literal "true" (Bool true) (String c rest)
          else if Ascii.eqb c "f" then literal "false" (Bool false) (String c rest)
          else if Ascii.eqb c "n" then literal "null" Null (String c rest)
          else
            match number (String c rest) with
            | Some (n, r) => Some (Number n, r)
            | None => None
            end
      end
  end

with elements (fuel : nat) (acc : list value) (s : string) {struct fuel}
  : option (value * string) :=
  match fuel with
  | O => None
  | S f =>
      match skipWs s with
      | String "]" after => Some (Array acc, after)
      | String "," r =>
          match parseValue f r with
          | Some (v, r') => elements f (acc ++ [v]) r'
          | None => None
          end
      | _ => None
      end
  end

with members (fuel : nat) (acc : list (string * value)) (s : string)
       {struct fuel} : option (value * string) :=
  match fuel with
  | O => None
  | S f =>
      match skipWs s with
      | String "}" after => Some (Object acc, after)
      | String "," r =>
          match skipWs r with
          | String "034" body =>
              match stringBody body with
              | Some (k, r1) =>
                  match skipWs r1 with
                  | String ":" r2 =>
                      match parseValue f r2 with
                      | Some (v, r3) => members f (set k v acc) r3
                      | None => None
                      end
                  | _ => None
                  end
              | None => None
              end
          | _ => None
          end
      | _ => None
      end
  end.

(** [JSON.parse(text)]: [None] stands for the [SyntaxError] it throws.
    The whole input must be one value surrounded by white space. *)
Definition parse (text : string) : option value :=
  match parseValue (2 * String.length text + 2) text with
  | Some (v, rest) =>
      match skipWs rest with
      | EmptyString => Some v
      | String _ _ => None
      end
  | None => None
  end.

End JSON.

(* ===================================================================== *)
(** ** [src/types.ts]                                                     *)
(* ===================================================================== *)

Inductive EducationLevel : Type :=
| FOUNDATION
| BOARD_LEVEL
| COMPETITIVE
| UNDERGRADUATE.

(** The string value of each enum member, which is what [${level}] prints. *)
Definition levelValue (level : EducationLevel) : string :=
  match level with
  | FOUNDATION => "Class 9-10 (Foundation)"
  | BOARD_LEVEL => "Class 11-12 (CBSE/State Boards)"
  | COMPETITIVE => "JEE Mains/Advanced & NEET"
  | UNDERGRADUATE => "Undergraduate (B.Sc/B.Tech)"
  end.

(** [ChemicalData] is an interface: [JSON.parse(...) as ChemicalData] is a
    cast without any run-time check, so a value of that type is whatever
    JSON value the parser built. *)
Definition ChemicalData : Type := JSON.value.

(* ===================================================================== *)
(** ** [src/services/gemini.ts]                                           *)
(* ===================================================================== *)

Module Gemini.

Definition MODEL_NAME : string := "gemini-3-flash-preview".

(** One entry of [parts]. *)
Inductive Part : Type :=
| inlineData (data : string) (mimeType : string)
| text (t : string).

Inductive SchemaType : Type :=
| STRING
| ARRAY (items : SchemaType).

Record Property : Type := {
  key : string;
  type : SchemaType;
  description : string
}.

(** The argument of [ai.models.generateContent]. *)
Record Request : Type := {
  model : string;
  parts : list Part;
  responseMimeType : string;
  properties : list Property;
  required : list string
}.

(** What the call resolves to: the analysis reads nothing but
    [response.text], which may be [undefined]. *)
Record Response : Type := { response_text : option string }.

(** A value caught by [catch (error: any)]: its [message] property, if it
    has one, and what [toString()] returns. *)
Record Thrown : Type := {
  message : option string;
  toString : string
}.

(** [new Error(msg)]; its [toString()] is the name alone when the message
    is empty. *)
Definition Error (msg : string) : Thrown :=
  {| message := Some msg;
     toString := match msg with
                 | EmptyString => "Error"
                 | String _ _ => "Error: " ++ msg
                 end |}.

(** How the awaited backend call ends. *)
Inductive Outcome : Type :=
| Resolved (response : Response)
| Rejected (error : Thrown).

(** The failures [analyzeChemicalStructure] surfaces.  Each stands for the
    [Error] thrown with the message [errorMessage] gives. *)
Inductive ErrorCategory : Type :=
| ValidationError
| AuthError
| AccessDeniedError
| RateLimitedError
| NetworkError
| ContentPolicyError
| MalformedResponseError
| UnknownError (verbatim : string).

Definition errorMessage (e : ErrorCategory) : string :=
  match e with
  | ValidationError => "Please provide a drawing or chemical name."
  | AuthError =>
      "Authentication Failed: Please check your API key configuration."
  | AccessDeniedError =>
      "Access Denied: The API key cannot access this model or region."
  | RateLimitedError =>
      "High Traffic: The service is currently busy. Please try again in a few seconds."
  | NetworkError => "Network Error: Please check your internet connection."
  | ContentPolicyError =>
      "Content Warning: The input was flagged by safety filters. Try a different drawing."
  | MalformedResponseError =>
      "Data Error: Could not interpret the AI's response. Please try again."
  | UnknownError verbatim => verbatim
  end.

(** [imageData.replace(/^data:image\/\w+;base64,/, EmptyString)]: the
    prefix goes when the string starts with [data:image/], then one or more
    word characters, then [;base64,].  No word character is a semicolon, so
    the greedy run of word characters is the only candidate match. *)
Definition stripDataUrl (imageData : string) : string :=
  if JS.startsWith "data:image/" imageData then
    let afterSlash := JS.drop 11 imageData in
    let afterWord := JS.dropWhile JS.isWordChar afterSlash in
    if (String.length afterWord <? String.length afterSlash)%nat
       && JS.startsWith ";base64," afterWord
    then JS.drop 8 afterWord
    else imageData
  else imageData.

Definition mimeTypeOf (imageData : string) : string :=
  if JS.startsWith "data:image/jpeg" imageData then "image/jpeg"
  else "image/png".

(** Up to the first interpolation. *)
Definition promptIntro : string :=
  "
    Act as a highly experienced Chemistry teacher in the Indian Education System.
    Identify the chemical compound from the ".

(** Between the source of the compound and the level. *)
Definition promptAudience : string :=
  ".
    
    Target Audience Level: ".

(** Between the two occurrences of the level. *)
Definition promptOutline : string :=
  "
    
    Provide a structured response containing:
    1. Common Name
    2. IUPAC Name
    3. Molecular Formula
    4. A summary explanation tailored specifically to the knowledge level of a student in ".

(** After the second occurrence of the level: the four level directives and
    the remaining items. *)
Definition promptDirectives : string :=
  ".
       - For Foundation: Keep it simple, focus on daily life uses and basic atoms.
       - For Board Level: Focus on standard properties, hybridization, and textbook definitions.
       - For JEE/NEET: Focus on stability, reaction mechanisms, exceptions, electronic effects (resonance/inductive), and competitive exam trivia.
       - For Undergraduate: Discuss molecular orbital theory, spectroscopic properties, and advanced synthesis.
    5. Key Properties/Facts (3-5 bullet points relevant to the level).
    6. Common Reactions or Uses (relevant to the level).
    7. Curriculum Context: A specific note on why this is important for this specific curriculum level (e.g., "
  ++ JS.dq ++ "Frequent question in JEE regarding acidity order"
  ++ JS.dq ++ ").
    8. Real World Analogy: A creative, non-chemistry analogy to help understand the molecule's behavior or structure (e.g., "
  ++ JS.dq ++ "Think of Benzene like a round table where everyone shares their food equally..."
  ++ JS.dq ++ ").
    9. Fun Facts: 3 interesting, quirky, or historical facts about this chemical.
  ".

(** The template literal assigned to [promptText], then the query appended
    when [textInput] is truthy. *)
Definition promptText (imageData textInput : option string)
  (level : EducationLevel) : string :=
  let base :=
    promptIntro
    ++ (if JS.truthy imageData then "image" else "name provided below")
    ++ promptAudience ++ levelValue level
    ++ promptOutline ++ levelValue level
    ++ promptDirectives in
  match textInput with
  | Some (String a s) =>
      base ++ (JS.lf ++ JS.lf ++ "Chemical Name/Query: ") ++ String a s
  | _ => base
  end.

(** The line of the template that addresses each level. *)
Definition directive (level : EducationLevel) : string :=
  match level with
  | FOUNDATION =>
      "For Foundation: Keep it simple, focus on daily life uses and basic atoms."
  | BOARD_LEVEL =>
      "For Board Level: Focus on standard properties, hybridization, and textbook definitions."
  | COMPETITIVE =>
      "For JEE/NEET: Focus on stability, reaction mechanisms, exceptions, electronic effects (resonance/inductive), and competitive exam trivia."
  | UNDERGRADUATE =>
      "For Undergraduate: Discuss molecular orbital theory, spectroscopic properties, and advanced synthesis."
  end.

(** The [parts] array: the image part when [imageData] is truthy, then the
    text part. *)
Definition buildParts (imageData textInput : option string)
  (level : EducationLevel) : list Part :=
  (match imageData with
   | Some (String a s) =>
       [inlineData (stripDataUrl (String a s)) (mimeTypeOf (String a s))]
   | _ => []
   end)
  ++ [text (promptText imageData textInput level)].

Definition responseSchema_properties : list Property :=
  [ {| key := "name"; type := STRING; description := "Common Name" |};
    {| key := "iupacName"; type := STRING; description := "IUPAC Name" |};
    {| key := "molecularFormula"; type := STRING;
       description := "Molecular Formula (e.g., C6H6)" |};
    {| key := "summary"; type := STRING;
       description := "Educational summary tailored to the level" |};
    {| key := "keyPoints"; type := ARRAY STRING;
       description := "List of key properties or facts" |};
    {| key := "reactions_or_uses"; type := ARRAY STRING;
       description := "List of reactions or uses" |};
    {| key := "curriculumContext"; type := STRING;
       description := "Context specific to the Indian exam curriculum selected" |};
    {| key := "analogy"; type := STRING;
       description := "A simple real-world analogy for the concept" |};
    {| key := "funFacts"; type := ARRAY STRING;
       description := "List of fun or historical facts" |} ].

Definition responseSchema_required : list string :=
  [ "name"; "iupacName"; "molecularFormula"; "summary"; "keyPoints";
    "reactions_or_uses"; "curriculumContext"; "analogy"; "funFacts" ].

Definition buildRequest (imageData textInput : option string)
  (level : EducationLevel) : Request :=
  {| model := MODEL_NAME;
     parts := buildParts imageData textInput level;
     responseMimeType := "application/json";
     properties := responseSchema_properties;
     required := responseSchema_required |}.

(** [error.message || error.toString()]. *)
Definition errString (error : Thrown) : string :=
  JS.or_else (message error) (toString error).

(** The chain of substring tests of the [catch] block, first match wins. *)
Definition classify (errString : string) : ErrorCategory :=
  if JS.includes "API key" errString || JS.includes "401" errString
  then AuthError
  else if JS.includes "403" errString then AccessDeniedError
  else if JS.includes "429" errString then RateLimitedError
  else if JS.includes "fetch failed" errString
          || JS.includes "network" errString
  then NetworkError
  else if JS.includes "Safety" errString || JS.includes "blocked" errString
  then ContentPolicyError
  else if JS.includes "JSON" errString || JS.includes "structure" errString
  then MalformedResponseError
  else UnknownError errString.

(** The body of the [try] once the awaited call has ended: either a value
    to return or the value thrown inside the block. *)
Definition tryBlock (outcome : Outcome) : Thrown + ChemicalData :=
  match outcome with
  | Rejected error => inl error
  | Resolved response =>
      match response_text response with
      | Some (String a s) =>
          match JSON.parse (String a s) with
          | Some parsedData => inr parsedData
          | None =>
              inl (Error "Failed to structure the chemical data. The AI response was malformed.")
          end
      | _ => inl (Error "Empty response received from AI model.")
      end
  end.

Section Analyze.

(** The hosted service, as the answer it gives to each request. *)
Variable generateContent : Request -> Outcome.

(** [analyzeChemicalStructure]: the requests sent, in order, and either the
    failure thrown or the data returned. *)
Definition analyzeChemicalStructure (imageData textInput : option string)
  (level : EducationLevel) : list Request * (ErrorCategory + ChemicalData) :=
  if negb (JS.truthy imageData) && negb (JS.truthy textInput) then
    ([], inl ValidationError)
  else
    let request := buildRequest imageData textInput level in
    ([request],
     match tryBlock (generateContent request) with
     | inr parsedData => inr parsedData
     | inl error => inl (classify (errString error))
     end).

End Analyze.

End Gemini.

(* ===================================================================== *)
(** ** The 2D canvas of the browser, as far as the component uses it      *)
(* ===================================================================== *)

Module Canvas2D.

(** A CSS colour, and a pixel: [None] is transparent black, the content of
    a fresh or just resized bitmap; every colour painted here is opaque. *)
Definition Color : Type := string.
Definition Pixel : Type := option Color.

(** A bitmap of [width] by [height] pixels.  [pixels] is only read inside
    the bounds, through [getPixel]. *)
Record Bitmap : Type := {
  width : N;
  height : N;
  pixels : N -> N -> Pixel
}.

Definition inside (b : Bitmap) (x y : N) : bool :=
  ((x <? width b) && (y <? height b))%N.

Definition getPixel (b : Bitmap) (x y : N) : Pixel :=
  if inside b x y then pixels b x y else None.

(** A bitmap just created or just given a new size. *)
Definition blank (w h : N) : Bitmap :=
  {| width := w; height := h; pixels := fun _ _ => None |}.

Definition Point : Type := (Z * Z)%type.

Record Subpath : Type := {
  points : list Point;
  closed : bool
}.

(** The drawing state of a 2D context and its current path. *)
Record Context2D : Type := {
  lineCap : string;
  lineJoin : string;
  lineWidth : Z;
  strokeStyle : Color;
  fillStyle : Color;
  path : list Subpath
}.

(** The state of a context whose canvas was just created or resized. *)
Definition defaultContext : Context2D :=
  {| lineCap := "butt"; lineJoin := "miter"; lineWidth := 1;
     strokeStyle := "#000000"; fillStyle := "#000000"; path := [] |}.

Definition set_path (p : list Subpath) (c : Context2D) : Context2D :=
  {| lineCap := lineCap c; lineJoin := lineJoin c; lineWidth := lineWidth c;
     strokeStyle := strokeStyle c; fillStyle := fillStyle c; path := p |}.

Definition set_fillStyle (f : Color) (c : Context2D) : Context2D :=
  {| lineCap := lineCap c; lineJoin := lineJoin c; lineWidth := lineWidth c;
     strokeStyle := strokeStyle c; fillStyle := f; path := path c |}.

Definition set_stroke (w : Z) (s : Color) (c : Context2D) : Context2D :=
  {| lineCap := lineCap c; lineJoin := lineJoin c; lineWidth := w;
     strokeStyle := s; fillStyle := fillStyle c; path := path c |}.

Definition set_round (c : Context2D) : Context2D :=
  {| lineCap := "round"; lineJoin := "round"; lineWidth := lineWidth c;
     strokeStyle := strokeStyle c; fillStyle := fillStyle c; path := path c |}.

(** [ctx.beginPath()], [ctx.moveTo(x, y)], [ctx.lineTo(x, y)] and
    [ctx.closePath()]. *)
Definition beginPath (c : Context2D) : Context2D := set_path [] c.

Definition moveTo (p : Point) (c : Context2D) : Context2D :=
  set_path (path c ++ [{| points := [p]; closed := false |}]) c.

Fixpoint onLast (f : Subpath -> list Subpath) (l : list Subpath)
  : list Subpath :=
  match l with
  | [] => []
  | [s] => f s
  | s :: l' => s :: onLast f l'
  end.

Definition lineTo (p : Point) (c : Context2D) : Context2D :=
  match path c with
  | [] => moveTo p c
  | _ =>
      set_path
        (onLast (fun s => [{| points := points s ++ [p]; closed := closed s |}])
           (path c)) c
  end.

Definition closePath (c : Context2D) : Context2D :=
  set_path
    (onLast
       (fun s =>
          match points s with
          | [] => [s]
          | first :: _ =>
              [ {| points := points s; closed := true |};
                {| points := [first]; closed := false |} ]
          end)
       (path c)) c.

(** [ctx.fillRect(x, y, w, h)] with pixel-aligned arguments. *)
Definition fillRect (x y w h : N) (color : Color) (b : Bitmap) : Bitmap :=
  {| width := width b; height := height b;
     pixels := fun i j =>
       if ((x <=? i) && (i <? x + w) && (y <=? j) && (j <? y + h))%N
       then Some color else pixels b i j |}.

(** [ctx.drawImage(src, 0, 0)]: source-over composition of [src] at the
    top-left corner; a transparent source pixel leaves the target as it
    is, and what lies outside the target is clipped. *)
Definition drawImage (src : Bitmap) (b : Bitmap) : Bitmap :=
  {| width := width b; height := height b;
     pixels := fun i j =>
       match getPixel src i j with
       | Some c => Some c
       | None => pixels b i j
       end |}.

(** Painting the pixels that a stroke covers. *)
Definition paint (covers : N -> N -> bool) (color : Color) (b : Bitmap)
  : Bitmap :=
  {| width := width b; height := height b;
     pixels := fun i j => if covers i j then Some color else pixels b i j |}.

(** *** A rasteriser for round caps and joins

    With round caps and round joins the stroke of a path is the set of
    points within half the line width of one of its segments; segments of
    length zero are pruned.  A pixel is painted when its centre is in that
    set (no anti-aliasing).  Coordinates are doubled to stay in [Z]. *)
Definition nearSegment (lineWidth : Z) (a b : Point) (i j : N) : bool :=
  let '(ax, ay) := (2 * fst a, 2 * snd a)%Z in
  let '(bx, by_) := (2 * fst b, 2 * snd b)%Z in
  let '(cx, cy) := (2 * Z.of_N i + 1, 2 * Z.of_N j + 1)%Z in
  let '(dx, dy) := (bx - ax, by_ - ay)%Z in
  let len2 := (dx * dx + dy * dy)%Z in
  let dot := ((cx - ax) * dx + (cy - ay) * dy)%Z in
  let da2 := ((cx - ax) * (cx - ax) + (cy - ay) * (cy - ay))%Z in
  let db2 := ((cx - bx) * (cx - bx) + (cy - by_) * (cy - by_))%Z in
  let r2 := (lineWidth * lineWidth)%Z in
  if (len2 =? 0)%Z then false
  else if (dot <=? 0)%Z then (da2 <=? r2)%Z
  else if (len2 <=? dot)%Z then (db2 <=? r2)%Z
  else (da2 * len2 - dot * dot <=? r2 * len2)%Z.

Fixpoint nearPolyline (lineWidth : Z) (pts : list Point) (i j : N) : bool :=
  match pts with
  | a :: ((b :: _) as rest) =>
      nearSegment lineWidth a b i j || nearPolyline lineWidth rest i j
  | _ => false
  end.

Definition closing (s : Subpath) : list Point :=
  match closed s, points s with
  | true, first :: _ => [first]
  | _, _ => []
  end.

Definition roundStroke (c : Context2D) (i j : N) : bool :=
  existsb (fun s => nearPolyline (lineWidth c) (points s ++ closing s) i j)
    (path c).

End Canvas2D.

(* ===================================================================== *)
(** ** [src/components/DrawingCanvas.tsx]: the [DrawingCanvas] component  *)
(* ===================================================================== *)

Module DrawingCanvas.

Import Canvas2D.

Inductive Tool : Type := pen | eraser.

(** [strokeColor], slate-800, and the white of the background. *)
Definition strokeColor : Color := "#1e293b".
Definition white : Color := "#ffffff".

(** The canvas element behind [canvasRef]: its bitmap and its 2D context. *)
Record CanvasElement : Type := {
  bitmap : Bitmap;
  ctx : Context2D
}.

(** The component: the element and the three pieces of React state. *)
Record State : Type := {
  canvas : CanvasElement;
  isDrawing : bool;
  hasDrawn : bool;
  tool : Tool
}.

(** A mouse event, or a touch event with its first touch and the others. *)
Inductive PointerEvent : Type :=
| MouseEvent (clientX clientY : Z)
| TouchEvent (primary : Z * Z) (others : list (Z * Z)).

(** The corner of [canvas.getBoundingClientRect()]. *)
Record Rect : Type := { left : Z; top : Z }.

Definition getCoordinates (rect : Rect) (e : PointerEvent) : Point :=
  let '(clientX, clientY) :=
    match e with
    | TouchEvent primary _ => primary
    | MouseEvent x y => (x, y)
    end in
  (clientX - left rect, clientY - top rect)%Z.

Definition with_canvas (c : CanvasElement) (s : State) : State :=
  {| canvas := c; isDrawing := isDrawing s; hasDrawn := hasDrawn s;
     tool := tool s |}.

(** The state at mount: a default canvas of 300 by 150 transparent pixels,
    on which the effect fills the container's box with white. *)
Definition mount (offsetWidth offsetHeight : N) : State :=
  {| canvas :=
       {| bitmap := fillRect 0 0 offsetWidth offsetHeight white (blank 300 150);
          ctx := set_fillStyle white defaultContext |};
     isDrawing := false;
     hasDrawn := false;
     tool := pen |}.

(** [handleResize], with the size of the container (as the canvas stores
    it, a whole number of pixels).  [drawImage] throws on a source canvas
    one of whose dimensions is zero: the handler then ends before it has
    changed anything.  Assigning [width] and [height] gives a blank bitmap
    and a default context. *)
Definition handleResize (width height : N) (s : State) : State :=
  let current := bitmap (canvas s) in
  if ((Canvas2D.width current =? 0) || (Canvas2D.height current =? 0))%N
  then s
  else
    let tempCanvas :=
      drawImage current
        (blank (Canvas2D.width current) (Canvas2D.height current)) in
    let resized := blank width height in
    let context := set_fillStyle white (set_round defaultContext) in
    let filled := fillRect 0 0 width height (fillStyle context) resized in
    with_canvas {| bitmap := drawImage tempCanvas filled; ctx := context |} s.

(** [clearCanvas]. *)
Definition clearCanvas (s : State) : State :=
  let c := canvas s in
  let context := set_fillStyle white (ctx c) in
  {| canvas :=
       {| bitmap :=
            fillRect 0 0 (Canvas2D.width (bitmap c))
              (Canvas2D.height (bitmap c)) (fillStyle context) (bitmap c);
          ctx := context |};
     isDrawing := isDrawing s;
     hasDrawn := false;
     tool := tool s |}.

Definition setTool (t : Tool) (s : State) : State :=
  {| canvas := canvas s; isDrawing := isDrawing s; hasDrawn := hasDrawn s;
     tool := t |}.

Section Component.

(** The rasteriser of the browser: the pixels that stroking the current
    path with the current line settings covers. *)
Variable strokeCovers : Context2D -> N -> N -> bool.

(** The image encoder behind [canvas.toDataURL(type, quality)]. *)
Variable toDataURL : Bitmap -> string -> Q -> string.

(** The [isProcessing] property the parent passes down. *)
Variable isProcessing : bool.

(** [startDrawing]. *)
Definition startDrawing (rect : Rect) (e : PointerEvent) (s : State) : State :=
  if isProcessing then s
  else
    let c := canvas s in
    {| canvas :=
         {| bitmap := bitmap c;
            ctx := moveTo (getCoordinates rect e) (beginPath (ctx c)) |};
       isDrawing := true;
       hasDrawn := true;
       tool := tool s |}.

(** [draw]. *)
Definition draw (rect : Rect) (e : PointerEvent) (s : State) : State :=
  if negb (isDrawing s) || isProcessing then s
  else
    let c := canvas s in
    let styled :=
      set_stroke (match tool s with eraser => 20 | pen => 3 end)%Z
        (match tool s with eraser => white | pen => strokeColor end)
        (ctx c) in
    let context := lineTo (getCoordinates rect e) styled in
    with_canvas
      {| bitmap := paint (strokeCovers context) (strokeStyle context) (bitmap c);
         ctx := context |} s.

(** [stopDrawing]. *)
Definition stopDrawing (s : State) : State :=
  if isProcessing then s
  else
    let c := canvas s in
    {| canvas := {| bitmap := bitmap c; ctx := closePath (ctx c) |};
       isDrawing := false;
       hasDrawn := hasDrawn s;
       tool := tool s |}.

(** [handleCapture]: the argument it hands to [onCapture], [None] being
    [null]. *)
Definition handleCapture (s : State) : option string :=
  if negb (hasDrawn s) then None
  else Some (toDataURL (bitmap (canvas s)) "image/jpeg" (7 # 10)).

(** What reaches the component: a resize of the window (or the timer set
    at mount) with the size of the container, the pointer handlers bound
    on the canvas, and the buttons of the tool bar. *)
Inductive Event : Type :=
| Resize (width height : N)
| PointerDown (rect : Rect) (e : PointerEvent)
| PointerMove (rect : Rect) (e : PointerEvent)
| PointerUp
| SelectTool (t : Tool)
| ClearAll.

Definition step (ev : Event) (s : State) : State :=
  match ev with
  | Resize w h => handleResize w h s
  | PointerDown rect e => startDrawing rect e s
  | PointerMove rect e => draw rect e s
  | PointerUp => stopDrawing s
  | SelectTool t => setTool t s
  | ClearAll => clearCanvas s
  end.

Definition run (evs : list Event) (s : State) : State :=
  fold_left (fun st ev => step ev st) evs s.

End Component.

(** The events that start a stroke, and the events of the pointer. *)
Definition startsStroke (ev : Event) : bool :=
  match ev with
  | PointerDown _ _ => true
  | _ => false
  end.

Definition isPointer (ev : Event) : bool :=
  match ev with
  | PointerDown _ _ | PointerMove _ _ | PointerUp => true
  | _ => false
  end.

End DrawingCanvas.

(* ===================================================================== *)
(** ** [ResultCard]: the pagination of [handleDownloadPDF]                *)
(* ===================================================================== *)

Module ResultCard.

Local Open Scope Q_scope.

(** [pdf.addImage(imgData, 'PNG', 0, position, imgWidth, imgHeight)]: the
    image laid on the current page with its top edge at [y] millimetres. *)
Record Placement : Type := {
  y : Q;
  w : Q;
  h : Q
}.

(** A page is what was laid on it; a document is its pages in order, the
    last one being the current page.  [new jsPDF(...)] has one empty page. *)
Definition Page : Type := list Placement.
Definition Document : Type := list Page.

Definition newDocument : Document := [[]].

Fixpoint addImage (p : Placement) (pdf : Document) : Document :=
  match pdf with
  | [] => []
  | [page] => [(page ++ [p])%list]
  | page :: pdf' => page :: addImage p pdf'
  end.

Definition addPage (pdf : Document) : Document := (pdf ++ [[]])%list.

Definition imgWidth : Q := 210.
Definition pageHeight : Q := 297.

(** The [while (heightLeft >= 0)] loop.  [None] when the fuel is used up
    before the loop ends. *)
Fixpoint addPages (fuel : nat) (imgHeight heightLeft : Q) (pdf : Document)
  : option Document :=
  if Qle_bool 0 heightLeft then
    match fuel with
    | O => None
    | S fuel' =>
        let position := heightLeft - imgHeight in
        let pdf := addPage pdf in
        let pdf := addImage {| y := position; w := imgWidth; h := imgHeight |} pdf in
        addPages fuel' imgHeight (heightLeft - pageHeight) pdf
    end
  else Some pdf.

(** The document [handleDownloadPDF] builds for a rendered canvas of
    [canvasWidth] by [canvasHeight] pixels, from [new jsPDF] to the end of
    the loop. *)
Definition handleDownloadPDF (fuel : nat) (canvasWidth canvasHeight : Z)
  : option Document :=
  let imgHeight := (inject_Z canvasHeight * imgWidth) / inject_Z canvasWidth in
  let heightLeft := imgHeight in
  let position := 0 in
  let pdf := addImage {| y := position; w := imgWidth; h := imgHeight |} newDocument in
  let heightLeft := heightLeft - pageHeight in
  addPages fuel imgHeight heightLeft pdf.

(** What [n] more rounds of the loop lay down, one page each, when the
    loop is entered with [heightLeft]. *)
Fixpoint laidPages (imgHeight heightLeft : Q) (n : nat) : Document :=
  match n with
  | O => []
  | S n' =>
      [{| y := heightLeft - imgHeight; w := imgWidth; h := imgHeight |}]
      :: laidPages imgHeight (heightLeft - pageHeight) n'
  end.

(** A natural number as a rational. *)
Definition Qn (n : nat) : Q := inject_Z (Z.of_nat n).

(** The part of the image a page shows, in millimetres from the top of the
    image: the page is [pageHeight] high and the image lies on it from [y]
    to [y + h]. *)
Definition bandTop (p : Placement) : Q := Qmax 0 (- y p).
Definition bandBottom (p : Placement) : Q := Qmin (h p) (pageHeight - y p).

(** A page shows some of the image when its band is not empty. *)
Definition showsImage (p : Placement) : bool :=
  negb (Qle_bool (bandBottom p) (bandTop p)).

End ResultCard.

(* ===================================================================== *)
(** ** The application component: [handleAnalysis] and the wiring         *)
(* ===================================================================== *)

Module App.

Import Gemini.

(** The React state of [App] that the analysis touches (the theme flag is
    left out). *)
Record State : Type := {
  level : EducationLevel;
  textInput : string;
  result : option ChemicalData;
  isProcessing : bool;
  error : option string
}.

Definition initial : State :=
  {| level := BOARD_LEVEL; textInput := EmptyString; result := None;
     isProcessing := false; error := None |}.

Definition setError (e : option string) (s : State) : State :=
  {| level := level s; textInput := textInput s; result := result s;
     isProcessing := isProcessing s; error := e |}.

Definition setResult (r : option ChemicalData) (s : State) : State :=
  {| level := level s; textInput := textInput s; result := r;
     isProcessing := isProcessing s; error := error s |}.

Definition setIsProcessing (b : bool) (s : State) : State :=
  {| level := level s; textInput := textInput s; result := result s;
     isProcessing := b; error := error s |}.

Definition setTextInput (t : string) (s : State) : State :=
  {| level := level s; textInput := t; result := result s;
     isProcessing := isProcessing s; error := error s |}.

Definition setLevel (l : EducationLevel) (s : State) : State :=
  {| level := l; textInput := textInput s; result := result s;
     isProcessing := isProcessing s; error := error s |}.

(** The arguments of a call of [analyzeChemicalStructure]. *)
Record Call : Type := {
  call_image : option string;
  call_text : option string;
  call_level : EducationLevel
}.

(** [handleAnalysis] up to its [await]: it returns at once with an error
    set, or it leaves the state pending and has made the call. *)
Inductive Started : Type :=
| Returned (s : State)
| Awaiting (pending : State) (call : Call).

(** [textInput.trim() || null]. *)
Definition trimmedOrNull (t : string) : option string :=
  match JS.trim t with
  | EmptyString => None
  | String a r => Some (String a r)
  end.

Definition handleAnalysis_start (imageData : option string) (s : State)
  : Started :=
  if negb (JS.truthy imageData) && negb (JS.truthy (Some (JS.trim (textInput s))))
  then Returned (setError (Some "Please draw a structure or enter a name.") s)
  else
    Awaiting (setResult None (setError None (setIsProcessing true s)))
      {| call_image := imageData;
         call_text := trimmedOrNull (textInput s);
         call_level := level s |}.

(** [handleAnalysis] after its [await], on the state of that moment:
    [setResult(data)] or [setError(err.message)], then the [finally]. *)
Definition handleAnalysis_settle (outcome : ErrorCategory + ChemicalData)
  (s : State) : State :=
  setIsProcessing false
    (match outcome with
     | inr data => setResult (Some data) s
     | inl err => setError (Some (errorMessage err)) s
     end).

(** The test [if (error)] of the text box, which is also the condition
    under which the error banner is rendered. *)
Definition showsError (s : State) : bool := JS.truthy (error s).

(** The page: the controller, the drawing surface it renders with its own
    [isProcessing], the call in flight if any, and the requests sent. *)
Record UI : Type := {
  app : State;
  surface : DrawingCanvas.State;
  inflight : option Call;
  sent : list Request
}.

Inductive Event : Type :=
| OnSurface (ev : DrawingCanvas.Event)
| ClickIdentify
| ClickGo
| PressEnter
| ChangeText (value : string)
| ChangeLevel (l : EducationLevel)
| Dismiss
| Settle.

Section Page.

Variable strokeCovers : Canvas2D.Context2D -> N -> N -> bool.
Variable toDataURL : Canvas2D.Bitmap -> string -> Q -> string.
Variable generateContent : Request -> Outcome.

Definition analyze (c : Call) : list Request * (ErrorCategory + ChemicalData) :=
  analyzeChemicalStructure generateContent
    (call_image c) (call_text c) (call_level c).

(** A call of [handleAnalysis] from an event handler: the synchronous part
    runs, requests included; the rest waits for [Settle]. *)
Definition handleAnalysis (imageData : option string) (ui : UI) : UI :=
  match handleAnalysis_start imageData (app ui) with
  | Returned s =>
      {| app := s; surface := surface ui; inflight := inflight ui;
         sent := sent ui |}
  | Awaiting pending call =>
      {| app := pending; surface := surface ui; inflight := Some call;
         sent := (sent ui ++ fst (analyze call))%list |}
  end.

Definition step (ev : Event) (ui : UI) : UI :=
  match ev with
  | OnSurface e =>
      {| app := app ui;
         surface :=
           DrawingCanvas.step strokeCovers (isProcessing (app ui)) e (surface ui);
         inflight := inflight ui; sent := sent ui |}
  | ClickIdentify =>
      (* disabled={isProcessing || !hasDrawn} *)
      if isProcessing (app ui) || negb (DrawingCanvas.hasDrawn (surface ui))
      then ui
      else handleAnalysis (DrawingCanvas.handleCapture toDataURL (surface ui)) ui
  | ClickGo =>
      (* disabled={isProcessing || !textInput.trim()} *)
      if isProcessing (app ui)
         || negb (JS.truthy (Some (JS.trim (textInput (app ui)))))
      then ui
      else handleAnalysis None ui
  | PressEnter =>
      if negb (isProcessing (app ui)) then handleAnalysis None ui else ui
  | ChangeText value =>
      let s := setTextInput value (app ui) in
      {| app := if showsError (app ui) then setError None s else s;
         surface := surface ui; inflight := inflight ui; sent := sent ui |}
  | ChangeLevel l =>
      {| app := setLevel l (app ui); surface := surface ui;
         inflight := inflight ui; sent := sent ui |}
  | Dismiss =>
      {| app := setError None (app ui); surface := surface ui;
         inflight := inflight ui; sent := sent ui |}
  | Settle =>
      match inflight ui with
      | None => ui
      | Some call =>
          {| app := handleAnalysis_settle (snd (analyze call)) (app ui);
             surface := surface ui; inflight := None; sent := sent ui |}
      end
  end.

Definition run (evs : list Event) (ui : UI) : UI :=
  fold_left (fun u ev => step ev u) evs ui.

Definition start (offsetWidth offsetHeight : N) : UI :=
  {| app := initial; surface := DrawingCanvas.mount offsetWidth offsetHeight;
     inflight := None; sent := [] |}.

End Page.

(** The flag and the call in flight go together. *)
Definition inSync (ui : UI) : bool :=
  Bool.eqb (isProcessing (app ui))
    (match inflight ui with Some _ => true | None => false end).

Definition isSettle (ev : Event) : bool :=
  match ev with
  | Settle => true
  | _ => false
  end.

End App.

(* ===================================================================== *)
(** ** [ResultCard]: the name of the saved file                           *)
(* ===================================================================== *)

Module ResultCardFile.

(** [s.replace(/\s+/g, '_')]: every maximal run of white space becomes one
    underscore.  The class [\s] is the white space of [trim].  [inRun]
    tells that the character before was white space, whose underscore is
    already written.  Every round consumes a character, so the length of
    the string is fuel enough. *)
Fixpoint replaceRuns (fuel : nat) (inRun : bool) (s : string) : string :=
  match fuel with
  | O => EmptyString
  | S f =>
      match JS.leadingSpace s with
      | Some n =>
          (if inRun then EmptyString else "_")
          ++ replaceRuns f true (JS.drop n s)
      | None =>
          match s with
          | EmptyString => EmptyString
          | String c r => String c (replaceRuns f false r)
          end
      end
  end.

Definition replaceSpaces (s : string) : string :=
  replaceRuns (String.length s) false s.

(** The template literal given to [pdf.save]; [None] is the [TypeError]
    of [data.name.replace] when [name] is not a string, which the [catch]
    of [handleDownloadPDF] turns into the alert. *)
Definition filename (data : ChemicalData) : option string :=
  match JSON.field "name" data with
  | Some (JSON.Str name) => Some (replaceSpaces name ++ "_Analysis.pdf")
  | _ => None
  end.

End ResultCardFile.

(* ===================================================================== *)
(** ** The application component: the theme                               *)
(* ===================================================================== *)

Module Theme.

(** What the theme code reads and writes in the browser: the item [theme]
    of [localStorage], the answer of
    [matchMedia('(prefers-color-scheme: dark)')], and whether the root
    element has the class [dark]. *)
Record Browser : Type := {
  item : option string;
  prefersDark : bool;
  darkClass : bool
}.

(** The initialiser of [isDarkMode]; [None] is a run without [window]. *)
Definition initialDarkMode (window : option Browser) : bool :=
  match window with
  | Some b =>
      match item b with
      | Some (String a s) => String.eqb (String a s) "dark"
      | _ => prefersDark b
      end
  | None => false
  end.

(** The effect that runs after mount and whenever [isDarkMode] changes. *)
Definition effect (isDarkMode : bool) (b : Browser) : Browser :=
  if isDarkMode
  then {| item := Some "dark"; prefersDark := prefersDark b;
          darkClass := true |}
  else {| item := Some "light"; prefersDark := prefersDark b;
          darkClass := false |}.

(** The flag and the browser after a render. *)
Record State : Type := {
  isDarkMode : bool;
  browser : Browser
}.

Definition mount (b : Browser) : State :=
  let mode := initialDarkMode (Some b) in
  {| isDarkMode := mode; browser := effect mode b |}.

(** [toggleTheme], followed by the effect. *)
Definition toggleTheme (s : State) : State :=
  let mode := negb (isDarkMode s) in
  {| isDarkMode := mode; browser := effect mode (browser s) |}.

Fixpoint toggles (n : nat) (s : State) : State :=
  match n with
  | O => s
  | S n' => toggles n' (toggleTheme s)
  end.

End Theme.

(* ===================================================================== *)
(** ** Predicates used to state properties                                *)
(* ===================================================================== *)

Module Predicates.

(** Every character of [s] satisfies [f]. *)
Fixpoint allChars (f : ascii -> bool) (s : string) : bool :=
  match s with
  | EmptyString => true
  | String c r => f c && allChars f r
  end.


(** No white space character occurs in [s]. *)
Definition spaceFree (s : string) : Prop :=
  forall w, In w JS.whiteSpace -> JS.includes w s = false.

(** Every pixel of the bitmap is painted. *)
Definition opaque (b : Canvas2D.Bitmap) : Prop :=
  forall x y, Canvas2D.inside b x y = true -> Canvas2D.getPixel b x y <> None.

(** Pointer events without a press: moves and releases. *)
Definition isHover (ev : DrawingCanvas.Event) : bool :=
  match ev with
  | DrawingCanvas.PointerMove _ _ | DrawingCanvas.PointerUp => true
  | _ => false
  end.

(** Pointer events without a move: presses and releases. *)
Definition isClick (ev : DrawingCanvas.Event) : bool :=
  match ev with
  | DrawingCanvas.PointerDown _ _ | DrawingCanvas.PointerUp => true
  | _ => false
  end.

End Predicates.

(* ===================================================================== *)
(** ** Inputs used by the examples                                        *)
(* ===================================================================== *)

Module Examples.

Import Gemini.

(** A string literal of JSON text. *)
Definition q (s : string) : string := JS.dq ++ s ++ JS.dq.

(** A response with the nine fields of the schema. *)
Definition benzeneBody : string :=
  "{" ++ q "name" ++ ": " ++ q "Benzene" ++ ", "
  ++ q "iupacName" ++ ": " ++ q "Benzene" ++ ", "
  ++ q "molecularFormula" ++ ": " ++ q "C6H6" ++ ", "
  ++ q "summary" ++ ": " ++ q "An aromatic ring of six carbon atoms." ++ ", "
  ++ q "keyPoints" ++ ": [" ++ q "Planar" ++ ", " ++ q "sp2 hybridised" ++ "], "
  ++ q "reactions_or_uses" ++ ": [" ++ q "Nitration" ++ "], "
  ++ q "curriculumContext" ++ ": " ++ q "Aromaticity is a board topic." ++ ", "
  ++ q "analogy" ++ ": " ++ q "A round table where everyone shares." ++ ", "
  ++ q "funFacts" ++ ": []}".

Definition benzeneData : ChemicalData :=
  JSON.Object
    [ ("name", JSON.Str "Benzene");
      ("iupacName", JSON.Str "Benzene");
      ("molecularFormula", JSON.Str "C6H6");
      ("summary", JSON.Str "An aromatic ring of six carbon atoms.");
      ("keyPoints", JSON.Array [JSON.Str "Planar"; JSON.Str "sp2 hybridised"]);
      ("reactions_or_uses", JSON.Array [JSON.Str "Nitration"]);
      ("curriculumContext", JSON.Str "Aromaticity is a board topic.");
      ("analogy", JSON.Str "A round table where everyone shares.");
      ("funFacts", JSON.Array []) ].

(** A backend that answers every request with the same text. *)
Definition answering (body : string) : Request -> Outcome :=
  fun _ => Resolved {| response_text := Some body |}.

(** A backend whose call fails with the given message. *)
Definition failing (msg : string) : Request -> Outcome :=
  fun _ => Rejected (Error msg).

(** A still as [toDataURL('image/jpeg', 0.7)] writes it. *)
Definition still : string := "data:image/jpeg;base64,/9j/4AAQSkZJRgABAQ".

(** A canvas whose bounding rectangle starts at the corner of the
    viewport. *)
Definition origin : DrawingCanvas.Rect :=
  {| DrawingCanvas.left := 0; DrawingCanvas.top := 0 |}.

(** A short stroke near the corner of a surface of four by four pixels,
    after the resize that the timer set at mount brings. *)
Definition cornerStroke : list DrawingCanvas.Event :=
  [ DrawingCanvas.Resize 4 4;
    DrawingCanvas.PointerDown origin (DrawingCanvas.MouseEvent 3 3);
    DrawingCanvas.PointerMove origin (DrawingCanvas.MouseEvent 3 2);
    DrawingCanvas.PointerUp ].

(** The surface after that stroke, drawn with round caps. *)
Definition cornerDrawn : DrawingCanvas.State :=
  DrawingCanvas.run Canvas2D.roundStroke false cornerStroke
    (DrawingCanvas.mount 4 4).

(** An encoder that answers with the same still for every bitmap. *)
Definition encoder : Canvas2D.Bitmap -> string -> Q -> string :=
  fun _ _ _ => still.

(** A backend that knows benzene and is too busy for anything else. *)
Definition busyBackend : Request -> Outcome :=
  fun request =>
    match parts request with
    | [text prompt] =>
        if JS.includes "Chemical Name/Query: Benzene" prompt
        then Resolved {| response_text := Some benzeneBody |}
        else Rejected (Error "got status: 429 Too Many Requests")
    | _ => Rejected (Error "got status: 429 Too Many Requests")
    end.

Definition page (evs : list App.Event) : App.UI :=
  App.run Canvas2D.roundStroke encoder busyBackend evs (App.start 4 4).

(** The page while the analysis of a typed name is pending. *)
Definition pendingPage : App.UI :=
  page [App.ChangeText "Benzene"; App.PressEnter].

(** The page once that analysis has succeeded and another name is typed. *)
Definition benzeneShown : App.UI :=
  page [App.ChangeText "Benzene"; App.PressEnter; App.Settle;
        App.ChangeText "Phenol"].

End Examples.

(* ===================================================================== *)
(** ** Further inputs used by the examples                                *)
(* ===================================================================== *)

Module MoreExamples.

Import Examples.

(** A surface of four by four pixels on which the pointer is pressed at
    (3, 3) and not yet released. *)
Definition pressed : DrawingCanvas.State :=
  DrawingCanvas.run Canvas2D.roundStroke false
    [ DrawingCanvas.Resize 4 4;
      DrawingCanvas.PointerDown origin (DrawingCanvas.MouseEvent 3 3) ]
    (DrawingCanvas.mount 4 4).

(** The page with a name typed and nothing submitted. *)
Definition typedPage : App.UI := page [App.ChangeText "  Benzene "].

(** The page with a stroke near the corner and nothing typed. *)
Definition drawnPage : App.UI :=
  page (map App.OnSurface cornerStroke).


(** A browser that prefers dark and has nothing stored. *)
Definition freshBrowser : Theme.Browser :=
  {| Theme.item := None; Theme.prefersDark := true; Theme.darkClass := false |}.

End MoreExamples.

(* ===================================================================== *)
(** ** Lemmas on the string operations                                    *)
(* ===================================================================== *)

Section StringFacts.

Import JS.

Lemma startsWith_refl (p : string) : startsWith p p = true.
Proof.
  induction p as [|a p IH]; simpl; [reflexivity|].
  rewrite Ascii.eqb_refl. exact IH.
Qed.

Lemma startsWith_app (p s t : string) :
  startsWith p s = true -> startsWith p (s ++ t) = true.
Proof.
  revert s. induction p as [|a p IH]; intros s H; [reflexivity|].
  destruct s as [|b s]; simpl in *; [discriminate|].
  apply andb_true_iff in H. destruct H as [Hab Hps].
  rewrite Hab. simpl. apply IH. exact Hps.
Qed.

Lemma includes_empty (s : string) : includes EmptyString s = true.
Proof. destruct s; reflexivity. Qed.

Lemma includes_app_l (p s t : string) :
  includes p s = true -> includes p (s ++ t) = true.
Proof.
  induction s as [|a s IH]; intros H.
  - destruct p as [|b p]; [apply includes_empty | discriminate].
  - simpl in H. apply orb_true_iff in H. destruct H as [H|H].
    + change (String a s ++ t) with (String a (s ++ t)).
      pose proof (startsWith_app p (String a s) t H) as H'.
      change (String a s ++ t) with (String a (s ++ t)) in H'.
      simpl. simpl in H'. rewrite H'. reflexivity.
    + simpl. rewrite (IH H). apply orb_true_r.
Qed.

Lemma includes_app_r (p s t : string) :
  includes p t = true -> includes p (s ++ t) = true.
Proof.
  intros H. induction s as [|a s IH]; [exact H|].
  simpl. rewrite IH. apply orb_true_r.
Qed.

Lemma includes_refl (p : string) : includes p p = true.
Proof.
  destruct p as [|a p]; [reflexivity|].
  unfold includes; fold includes. rewrite startsWith_refl. reflexivity.
Qed.

End StringFacts.

(* ===================================================================== *)
(** ** The analysis request builder                                       *)
(* ===================================================================== *)

Module GeminiFacts.

Import Gemini Examples.

(** With an image or a text, the call sends exactly the request built from
    its arguments and ends as the [try] block and the [catch] decide. *)
Lemma analyze_with_input gc imageData textInput level :
  JS.truthy imageData || JS.truthy textInput = true ->
  analyzeChemicalStructure gc imageData textInput level =
  ([buildRequest imageData textInput level],
   match tryBlock (gc (buildRequest imageData textInput level)) with
   | inr parsedData => inr parsedData
   | inl error => inl (classify (errString error))
   end).
Proof.
  intros H. unfold analyzeChemicalStructure.
  destruct (JS.truthy imageData), (JS.truthy textInput);
    simpl in *; try reflexivity; discriminate.
Qed.

Lemma parse_empty : JSON.parse EmptyString = None.
Proof. reflexivity. Qed.

(** A body that parses is returned as parsed. *)
Lemma tryBlock_parsed body data :
  JSON.parse body = Some data ->
  tryBlock (Resolved {| response_text := Some body |}) = inr data.
Proof.
  intros H. destruct body as [|a s].
  - rewrite parse_empty in H. discriminate.
  - simpl. rewrite H. reflexivity.
Qed.

(** A body that is not empty and does not parse makes the block throw its
    own error, which the [catch] files under the data error. *)
Lemma tryBlock_unparsable a s :
  JSON.parse (String a s) = None ->
  tryBlock (Resolved {| response_text := Some (String a s) |})
  = inl (Error "Failed to structure the chemical data. The AI response was malformed.").
Proof. intros H. simpl. rewrite H. reflexivity. Qed.

Lemma classify_unparsable :
  classify
    (errString
       (Error "Failed to structure the chemical data. The AI response was malformed."))
  = MalformedResponseError.
Proof. vm_compute. reflexivity. Qed.

(** The failure of a rejected call is classified from its description. *)
Lemma analyze_rejected gc imageData textInput level error :
  JS.truthy imageData || JS.truthy textInput = true ->
  gc (buildRequest imageData textInput level) = Rejected error ->
  snd (analyzeChemicalStructure gc imageData textInput level)
  = inl (classify (errString error)).
Proof.
  intros Hin Hgc. rewrite (analyze_with_input _ _ _ _ Hin).
  simpl. rewrite Hgc. reflexivity.
Qed.

(** C4.  For every curriculum level, and whatever the backend would answer,
    the analysis called without an image and without a text fails with the
    validation error and has sent no request. *)
Theorem analyze_nothing_is_validation_error :
  forall (gc : Request -> Outcome) (level : EducationLevel),
    analyzeChemicalStructure gc None None level = ([], inl ValidationError).
Proof. intros gc level. reflexivity. Qed.

(** C5.  When a call made with an image or a text gets a response whose
    text parses as JSON with the nine required fields, the analysis returns
    the parsed value itself: every field of the result is the field of the
    parsed body. *)
Theorem analyze_returns_parsed_fields :
  forall (gc : Request -> Outcome) imageData textInput level body data,
    JS.truthy imageData || JS.truthy textInput = true ->
    gc (buildRequest imageData textInput level)
    = Resolved {| response_text := Some body |} ->
    JSON.parse body = Some data ->
    (forall k, In k responseSchema_required -> JSON.field k data <> None) ->
    snd (analyzeChemicalStructure gc imageData textInput level) = inr data
    /\ forall r,
         snd (analyzeChemicalStructure gc imageData textInput level) = inr r ->
         forall k, JSON.field k r = JSON.field k data.
Proof.
  intros gc imageData textInput level body data Hin Hgc Hparse _.
  assert (Hres : snd (analyzeChemicalStructure gc imageData textInput level)
                 = inr data).
  { rewrite (analyze_with_input _ _ _ _ Hin). simpl.
    rewrite Hgc, (tryBlock_parsed _ _ Hparse). reflexivity. }
  split; [exact Hres|].
  intros r Hr k. rewrite Hres in Hr. injection Hr as <-. reflexivity.
Qed.

Lemma analyze_returns_parsed_fields_witness :
  (JS.truthy None || JS.truthy (Some "Benzene") = true)
  /\ JSON.parse benzeneBody = Some benzeneData
  /\ (forall k, In k responseSchema_required ->
                JSON.field k benzeneData <> None)
  /\ snd (analyzeChemicalStructure (answering benzeneBody)
            None (Some "Benzene") BOARD_LEVEL) = inr benzeneData.
Proof.
  assert (Hfields : forall k, In k responseSchema_required ->
                              JSON.field k benzeneData <> None).
  { intros k Hk. simpl in Hk.
    repeat (destruct Hk as [<-|Hk]; [discriminate|]). contradiction. }
  split; [reflexivity|]. split; [vm_compute; reflexivity|].
  split; [exact Hfields|].
  apply (analyze_returns_parsed_fields (answering benzeneBody)
           None (Some "Benzene") BOARD_LEVEL benzeneBody benzeneData).
  - reflexivity.
  - reflexivity.
  - vm_compute; reflexivity.
  - exact Hfields.
Defined.

(** C1, as the code has it.  For a call made with an image or a text whose
    response carries a text that is not empty: when the text does not parse
    as JSON the analysis fails with the data error, whatever else the
    response holds; when it parses, the parsed value is returned as it is,
    and nothing checks that the nine required fields are there. *)
Theorem analyze_unparsable_body_is_data_error :
  forall (gc : Request -> Outcome) imageData textInput level response a s,
    JS.truthy imageData || JS.truthy textInput = true ->
    gc (buildRequest imageData textInput level) = Resolved response ->
    response_text response = Some (String a s) ->
    (JSON.parse (String a s) = None ->
     snd (analyzeChemicalStructure gc imageData textInput level)
     = inl MalformedResponseError)
    /\ (forall data,
          JSON.parse (String a s) = Some data ->
          snd (analyzeChemicalStructure gc imageData textInput level)
          = inr data).
Proof.
  intros gc imageData textInput level [body] a s Hin Hgc Hbody.
  simpl in Hbody. subst body.
  rewrite (analyze_with_input _ _ _ _ Hin), Hgc. split.
  - intros Hparse. cbn [snd]. rewrite (tryBlock_unparsable _ _ Hparse).
    rewrite classify_unparsable. reflexivity.
  - intros data Hparse. cbn [snd].
    rewrite (tryBlock_parsed _ _ Hparse). reflexivity.
Qed.

Lemma analyze_unparsable_body_is_data_error_witness :
  (JS.truthy None || JS.truthy (Some "Benzene") = true)
  /\ JSON.parse "not json" = None
  /\ snd (analyzeChemicalStructure (answering "not json")
            None (Some "Benzene") FOUNDATION) = inl MalformedResponseError.
Proof.
  split; [reflexivity|]. split; [reflexivity|].
  apply (analyze_unparsable_body_is_data_error (answering "not json")
           None (Some "Benzene") FOUNDATION
           {| response_text := Some "not json" |} "n" "ot json");
    reflexivity.
Defined.

(** C1 as stated fails: the text [{}] parses, has none of the nine
    required fields, and is returned as the result instead of the data
    error. *)
Lemma body_without_required_fields_is_returned :
  JSON.parse "{}" = Some (JSON.Object [])
  /\ (forall k, JSON.field k (JSON.Object []) = None)
  /\ analyzeChemicalStructure (answering "{}") None (Some "Benzene") BOARD_LEVEL
     = ([buildRequest None (Some "Benzene") BOARD_LEVEL],
        inr (JSON.Object []))
  /\ snd (analyzeChemicalStructure (answering "{}")
            None (Some "Benzene") BOARD_LEVEL)
     <> inl MalformedResponseError.
Proof.
  split; [reflexivity|]. split; [reflexivity|].
  split; [reflexivity|]. discriminate.
Qed.

(** An absent or empty text is reported with the message of the block,
    which no pattern of the [catch] matches. *)
Lemma analyze_empty_body gc imageData textInput level response :
  JS.truthy imageData || JS.truthy textInput = true ->
  gc (buildRequest imageData textInput level) = Resolved response ->
  JS.truthy (response_text response) = false ->
  snd (analyzeChemicalStructure gc imageData textInput level)
  = inl (UnknownError "Empty response received from AI model.").
Proof.
  intros Hin Hgc Hempty. rewrite (analyze_with_input _ _ _ _ Hin), Hgc.
  destruct response as [[[|a s]|]]; try discriminate; reflexivity.
Qed.

(** C2, as the code has it.  The category is a function of the description
    of the error alone, decided by a fixed chain of tests.  A description
    with [403] and without [API key] and [401] is an access denial, also
    when it has [429]; a description with [429] and without [API key],
    [401] and [403] is a rate limit.  The failure of a rejected call is the
    category of its description. *)
Theorem classify_403_before_429 :
  forall description : string,
    JS.includes "API key" description = false ->
    JS.includes "401" description = false ->
    (JS.includes "403" description = true ->
     classify description = AccessDeniedError)
    /\ (JS.includes "403" description = false ->
        JS.includes "429" description = true ->
        classify description = RateLimitedError)
    /\ (forall (gc : Request -> Outcome) imageData textInput level error,
          JS.truthy imageData || JS.truthy textInput = true ->
          gc (buildRequest imageData textInput level) = Rejected error ->
          errString error = description ->
          snd (analyzeChemicalStructure gc imageData textInput level)
          = inl (classify description)).
Proof.
  intros d Hkey H401. split; [|split].
  - intros H403. unfold classify. rewrite Hkey, H401, H403. reflexivity.
  - intros H403 H429. unfold classify.
    rewrite Hkey, H401, H403, H429. reflexivity.
  - intros gc imageData textInput level error Hin Hgc <-.
    apply analyze_rejected; assumption.
Qed.

Lemma classify_403_before_429_witness :
  classify "got status: 403 Forbidden, then 429" = AccessDeniedError
  /\ classify "got status: 429 Too Many Requests" = RateLimitedError
  /\ snd (analyzeChemicalStructure
            (failing "got status: 429 Too Many Requests")
            (Some still) None COMPETITIVE)
     = inl RateLimitedError.
Proof.
  split; [|split].
  - apply (classify_403_before_429 "got status: 403 Forbidden, then 429");
      reflexivity.
  - apply (classify_403_before_429 "got status: 429 Too Many Requests");
      reflexivity.
  - apply (proj2 (proj2 (classify_403_before_429
                           "got status: 429 Too Many Requests"
                           eq_refl eq_refl))
             (failing "got status: 429 Too Many Requests")
             (Some still) None COMPETITIVE
             (Error "got status: 429 Too Many Requests"));
      reflexivity.
Defined.

(** C2 as stated fails: a description can hold [429], or [403], and be
    filed under a test that comes earlier in the chain. *)
Lemma classify_earlier_test_wins :
  JS.includes "429" "API key quota exceeded (429)" = true
  /\ JS.includes "403" "API key quota exceeded (429)" = false
  /\ classify "API key quota exceeded (429)" = AuthError
  /\ classify "API key quota exceeded (429)" <> RateLimitedError
  /\ JS.includes "403" "401 Unauthorized (was 403)" = true
  /\ classify "401 Unauthorized (was 403)" = AuthError
  /\ classify "401 Unauthorized (was 403)" <> AccessDeniedError.
Proof.
  repeat split; try reflexivity; discriminate.
Qed.

(** Each directive is a line of the template. *)
Lemma directive_in_template level :
  JS.includes (directive level) promptDirectives = true.
Proof. destruct level; vm_compute; reflexivity. Qed.

Lemma prompt_includes_directive imageData textInput level :
  JS.includes (directive level) (promptText imageData textInput level) = true.
Proof.
  assert (Hbase : forall source,
    JS.includes (directive level)
      (promptIntro ++ source ++ promptAudience ++ levelValue level
       ++ promptOutline ++ levelValue level ++ promptDirectives) = true).
  { intros source. do 6 apply includes_app_r. apply directive_in_template. }
  unfold promptText. destruct textInput as [[|a s]|].
  - apply Hbase.
  - apply includes_app_l. apply Hbase.
  - apply Hbase.
Qed.

Lemma prompt_includes_level imageData textInput level :
  JS.includes (levelValue level) (promptText imageData textInput level) = true.
Proof.
  assert (Hbase : forall source,
    JS.includes (levelValue level)
      (promptIntro ++ source ++ promptAudience ++ levelValue level
       ++ promptOutline ++ levelValue level ++ promptDirectives) = true).
  { intros source. do 3 apply includes_app_r. apply includes_app_l.
    apply includes_refl. }
  unfold promptText. destruct textInput as [[|a s]|].
  - apply Hbase.
  - apply includes_app_l. apply Hbase.
  - apply Hbase.
Qed.

Lemma prompt_includes_query imageData query level :
  JS.includes query (promptText imageData (Some query) level) = true.
Proof.
  destruct query as [|a s]; [apply includes_empty|].
  unfold promptText. do 2 apply includes_app_r. apply includes_refl.
Qed.

(** C6.  A call made with an image or a text sends one request.  Its parts
    are the text part alone when there is no image, and one image part
    followed by the text part when there is one; the image part has the
    type JPEG when the still starts with the JPEG data URL header and PNG
    otherwise; the text part holds the directive of the selected level, the
    name of the level, and the query when there is one. *)
Theorem request_has_optional_image_and_one_text :
  forall (gc : Request -> Outcome) imageData textInput level,
    JS.truthy imageData || JS.truthy textInput = true ->
    let request := buildRequest imageData textInput level in
    let prompt := promptText imageData textInput level in
    fst (analyzeChemicalStructure gc imageData textInput level) = [request]
    /\ (JS.truthy imageData = false -> parts request = [text prompt])
    /\ (forall image,
          imageData = Some image -> JS.truthy imageData = true ->
          parts request
          = [inlineData (stripDataUrl image) (mimeTypeOf image); text prompt]
          /\ mimeTypeOf image
             = if JS.startsWith "data:image/jpeg" image
               then "image/jpeg" else "image/png")
    /\ JS.includes (directive level) prompt = true
    /\ JS.includes (levelValue level) prompt = true
    /\ (forall query, textInput = Some query ->
                      JS.includes query prompt = true).
Proof.
  intros gc imageData textInput level Hin request prompt.
  split; [|split; [|split; [|split; [|split]]]].
  - rewrite (analyze_with_input _ _ _ _ Hin). reflexivity.
  - intros Hno. unfold request, buildRequest, buildParts. cbn [parts].
    destruct imageData as [[|a s]|]; try reflexivity. discriminate.
  - intros image -> Hyes. split; [|reflexivity].
    destruct image as [|a s]; [discriminate|]. reflexivity.
  - apply prompt_includes_directive.
  - apply prompt_includes_level.
  - intros query ->. apply prompt_includes_query.
Qed.

Lemma request_has_optional_image_and_one_text_witness :
  (JS.truthy (Some still) || JS.truthy None = true)
  /\ fst (analyzeChemicalStructure (answering benzeneBody)
            (Some still) None BOARD_LEVEL)
     = [buildRequest (Some still) None BOARD_LEVEL]
  /\ parts (buildRequest (Some still) None BOARD_LEVEL)
     = [inlineData "/9j/4AAQSkZJRgABAQ" "image/jpeg";
        text (promptText (Some still) None BOARD_LEVEL)]
  /\ JS.includes
       "For Board Level: Focus on standard properties, hybridization, and textbook definitions."
       (promptText (Some still) None BOARD_LEVEL) = true.
Proof.
  pose proof (request_has_optional_image_and_one_text
                (answering benzeneBody) (Some still) None BOARD_LEVEL eq_refl)
    as (Hsent & _ & Himage & Hdirective & _).
  split; [reflexivity|]. split; [exact Hsent|].
  split; [exact (proj1 (Himage still eq_refl eq_refl))|exact Hdirective].
Defined.

(** The text-only scenario: no image part goes out, and the query is in
    the text part. *)
Example benzene_by_name :
  parts (buildRequest None (Some "Benzene") UNDERGRADUATE)
  = [text (promptText None (Some "Benzene") UNDERGRADUATE)]
  /\ JS.includes "Chemical Name/Query: Benzene"
       (promptText None (Some "Benzene") UNDERGRADUATE) = true.
Proof. split; [reflexivity | vm_compute; reflexivity]. Qed.

End GeminiFacts.

(* ===================================================================== *)
(** ** The drawing surface                                                *)
(* ===================================================================== *)

Module SurfaceFacts.

Import Canvas2D DrawingCanvas Examples.

(** Reading a copy made on a blank bitmap of the same size is reading the
    original. *)
Lemma getPixel_copy (b : Bitmap) (x y : N) :
  getPixel (drawImage b (blank (width b) (height b))) x y = getPixel b x y.
Proof.
  unfold getPixel, inside, drawImage, blank; cbn [width height pixels].
  unfold getPixel, inside.
  destruct ((x <? width b)%N && (y <? height b)%N); [|reflexivity].
  destruct (pixels b x y); reflexivity.
Qed.

(** C3, as the code has it.  On a surface whose buffer has no zero
    dimension, a resize gives the buffer the new size; inside the new size
    a pixel that was painted keeps its colour (the old buffer is copied
    into the top-left corner) and every other pixel is white; nothing is
    kept outside the new size, so ink beyond it is cropped.  The flags of
    the component are untouched. *)
Theorem handleResize_keeps_what_fits :
  forall (newWidth newHeight : N) (s : State),
    (0 < width (bitmap (canvas s)))%N ->
    (0 < height (bitmap (canvas s)))%N ->
    let old := bitmap (canvas s) in
    let s' := handleResize newWidth newHeight s in
    let new := bitmap (canvas s') in
    width new = newWidth /\ height new = newHeight
    /\ (forall x y, (x < newWidth)%N -> (y < newHeight)%N ->
          getPixel new x y
          = match getPixel old x y with
            | Some ink => Some ink
            | None => Some white
            end)
    /\ (forall x y, (newWidth <= x)%N \/ (newHeight <= y)%N ->
          getPixel new x y = None)
    /\ hasDrawn s' = hasDrawn s /\ isDrawing s' = isDrawing s
    /\ tool s' = tool s.
Proof.
  intros newWidth newHeight s Hw Hh old s' new.
  assert (Hs' : s' =
    with_canvas
      {| bitmap :=
           drawImage (drawImage old (blank (width old) (height old)))
             (fillRect 0 0 newWidth newHeight white (blank newWidth newHeight));
         ctx := set_fillStyle white (set_round defaultContext) |} s).
  { unfold s', handleResize. fold old.
    destruct (N.eqb_spec (width old) 0) as [E|_]; [unfold old in E; lia|].
    destruct (N.eqb_spec (height old) 0) as [E|_]; [unfold old in E; lia|].
    reflexivity. }
  unfold new. rewrite Hs'. cbn [canvas with_canvas bitmap hasDrawn isDrawing tool].
  repeat split.
  - intros x y Hx Hy.
    unfold getPixel at 1, inside. cbn [drawImage fillRect blank width height pixels].
    rewrite getPixel_copy.
    apply N.ltb_lt in Hx, Hy. rewrite Hx, Hy. cbn [andb].
    destruct (getPixel old x y); [reflexivity|].
    assert (Hx0 : (0 <=? x)%N = true) by (apply N.leb_le; lia).
    assert (Hy0 : (0 <=? y)%N = true) by (apply N.leb_le; lia).
    rewrite !N.add_0_l, Hx, Hy, Hx0, Hy0. reflexivity.
  - intros x y Hout.
    unfold getPixel, inside. cbn [drawImage fillRect blank width height pixels].
    destruct Hout as [H|H]; apply N.ltb_ge in H; rewrite H;
      [|rewrite andb_false_r]; reflexivity.
Qed.

Lemma handleResize_keeps_what_fits_witness :
  (0 < width (bitmap (canvas cornerDrawn)))%N
  /\ (0 < height (bitmap (canvas cornerDrawn)))%N
  /\ getPixel (bitmap (canvas cornerDrawn)) 3 3 = Some strokeColor
  /\ getPixel (bitmap (canvas (handleResize 6 5 cornerDrawn))) 3 3
     = Some strokeColor
  /\ getPixel (bitmap (canvas (handleResize 6 5 cornerDrawn))) 5 4
     = Some white.
Proof.
  assert (Hw : (0 < width (bitmap (canvas cornerDrawn)))%N) by reflexivity.
  assert (Hh : (0 < height (bitmap (canvas cornerDrawn)))%N) by reflexivity.
  destruct (handleResize_keeps_what_fits 6 5 cornerDrawn Hw Hh)
    as (_ & _ & Hin & _).
  split; [exact Hw|]. split; [exact Hh|]. split; [reflexivity|].
  split.
  - rewrite (Hin 3 3)%N by reflexivity. reflexivity.
  - rewrite (Hin 5 4)%N by reflexivity. reflexivity.
Defined.

(** C3 as stated fails: after the stroke near the corner, the pixel at
    (3, 3) holds ink; once the surface is resized to two by two pixels that
    pixel is gone and all that is left is white. *)
Lemma shrinking_drops_ink :
  getPixel (bitmap (canvas cornerDrawn)) 3 3 = Some strokeColor
  /\ getPixel
       (bitmap (canvas (step roundStroke false (Resize 2 2) cornerDrawn))) 3 3
     = None
  /\ (forall x y, (x < 2)%N -> (y < 2)%N ->
        getPixel
          (bitmap (canvas (step roundStroke false (Resize 2 2) cornerDrawn)))
          x y
        = Some white).
Proof.
  split; [reflexivity|]. split; [reflexivity|].
  intros x y Hx Hy.
  assert (Ex : x = 0%N \/ x = 1%N) by lia.
  assert (Ey : y = 0%N \/ y = 1%N) by lia.
  destruct Ex as [-> | ->], Ey as [-> | ->]; reflexivity.
Qed.

(** An event other than the start of a stroke leaves [hasDrawn] false. *)
Lemma step_keeps_no_ink sc isProcessing ev s :
  startsStroke ev = false ->
  hasDrawn s = false -> hasDrawn (step sc isProcessing ev s) = false.
Proof.
  intros Hev Hs. destruct ev; try discriminate; cbn [step].
  - unfold handleResize.
    destruct (_ || _)%bool; [exact Hs | exact Hs].
  - unfold draw. destruct (_ || _)%bool; exact Hs.
  - unfold stopDrawing. destruct isProcessing; exact Hs.
  - exact Hs.
  - reflexivity.
Qed.

Lemma run_keeps_no_ink sc isProcessing evs :
  forallb (fun ev => negb (startsStroke ev)) evs = true ->
  forall s, hasDrawn s = false ->
            hasDrawn (run sc isProcessing evs s) = false.
Proof.
  induction evs as [|ev evs IH]; intros Hevs s Hs; [exact Hs|].
  cbn [forallb] in Hevs. apply andb_true_iff in Hevs.
  destruct Hevs as [Hev Hevs]. apply negb_true_iff in Hev.
  cbn [run fold_left]. apply (IH Hevs).
  apply step_keeps_no_ink; assumption.
Qed.

(** C8.  In every state of the surface, clearing leaves [hasDrawn] false,
    and a capture taken then hands [null] to [onCapture], neither an image
    nor an error; the same holds after any further events among which no
    stroke is started. *)
Theorem clear_then_capture_gives_null :
  forall (sc : Context2D -> N -> N -> bool)
         (toDataURL : Bitmap -> string -> Q -> string)
         (isProcessing : bool) (s : State) (evs : list Event),
    forallb (fun ev => negb (startsStroke ev)) evs = true ->
    hasDrawn (clearCanvas s) = false
    /\ handleCapture toDataURL (clearCanvas s) = None
    /\ hasDrawn (run sc isProcessing evs (clearCanvas s)) = false
    /\ handleCapture toDataURL (run sc isProcessing evs (clearCanvas s))
       = None.
Proof.
  intros sc toDataURL isProcessing s evs Hevs.
  assert (H : hasDrawn (run sc isProcessing evs (clearCanvas s)) = false)
    by (apply run_keeps_no_ink; [exact Hevs | reflexivity]).
  repeat split; try exact H.
  unfold handleCapture. rewrite H. reflexivity.
Qed.

Lemma clear_then_capture_gives_null_witness :
  handleCapture encoder cornerDrawn = Some still
  /\ hasDrawn (clearCanvas cornerDrawn) = false
  /\ handleCapture encoder (clearCanvas cornerDrawn) = None
  /\ handleCapture encoder
       (run roundStroke false [Resize 6 5; SelectTool eraser]
          (clearCanvas cornerDrawn)) = None.
Proof.
  destruct (clear_then_capture_gives_null roundStroke encoder false
              cornerDrawn [Resize 6 5; SelectTool eraser] eq_refl)
    as (Hink & Hnull & _ & Hlater).
  split; [reflexivity|]. split; [exact Hink|]. split; [exact Hnull|].
  exact Hlater.
Defined.

(** While [isProcessing] is set the three pointer handlers return at
    once. *)
Lemma pointer_ignored_while_processing sc evs :
  forallb isPointer evs = true ->
  forall s, run sc true evs s = s.
Proof.
  induction evs as [|ev evs IH]; intros Hevs s; [reflexivity|].
  cbn [forallb] in Hevs. apply andb_true_iff in Hevs.
  destruct Hevs as [Hev Hevs].
  cbn [run fold_left]. fold (run sc true evs).
  destruct ev; try discriminate; cbn [step].
  - apply (IH Hevs).
  - unfold draw. rewrite orb_true_r. apply (IH Hevs).
  - apply (IH Hevs).
Qed.

(** Outside of processing, [startDrawing] opens a path at the point of the
    event, in canvas coordinates, and sets both flags; the pixels stay. *)
Lemma startDrawing_begins_path rect e s :
  let s' := startDrawing false rect e s in
  path (ctx (canvas s'))
  = [{| points := [getCoordinates rect e]; closed := false |}]
  /\ hasDrawn s' = true /\ isDrawing s' = true
  /\ bitmap (canvas s') = bitmap (canvas s) /\ tool s' = tool s.
Proof. repeat split. Qed.

End SurfaceFacts.

(* ===================================================================== *)
(** ** The controller                                                     *)
(* ===================================================================== *)

Module AppFacts.

Import Gemini App Examples.

Section Page.

Variable sc : Canvas2D.Context2D -> N -> N -> bool.
Variable toDataURL : Canvas2D.Bitmap -> string -> Q -> string.
Variable gc : Request -> Outcome.

(** A call that goes through leaves the state pending, with neither a
    result nor an error. *)
Lemma handleAnalysis_start_pending imageData s pending call :
  handleAnalysis_start imageData s = Awaiting pending call ->
  pending = setResult None (setError None (setIsProcessing true s))
  /\ call = {| call_image := imageData;
               call_text := trimmedOrNull (textInput s);
               call_level := level s |}.
Proof.
  unfold handleAnalysis_start. destruct (_ && _); [discriminate|].
  intros H. injection H as <- <-. split; reflexivity.
Qed.

Lemma handleAnalysis_inSync imageData ui :
  isProcessing (app ui) = false -> inSync ui = true ->
  inSync (handleAnalysis gc imageData ui) = true.
Proof.
  intros Hidle Hsync. unfold handleAnalysis.
  destruct (handleAnalysis_start imageData (app ui)) as [s|pending call] eqn:E.
  - unfold handleAnalysis_start in E. destruct (_ && _); [|discriminate].
    injection E as <-. exact Hsync.
  - apply handleAnalysis_start_pending in E. destruct E as [-> _]. reflexivity.
Qed.

Lemma step_inSync ev ui :
  inSync ui = true -> inSync (step sc toDataURL gc ev ui) = true.
Proof.
  intros Hsync. destruct ev; cbn [step]; try exact Hsync.
  - destruct (isProcessing (app ui)) eqn:E; cbn [orb]; [exact Hsync|].
    destruct (negb _); [exact Hsync|]. apply handleAnalysis_inSync; assumption.
  - destruct (isProcessing (app ui)) eqn:E; cbn [orb]; [exact Hsync|].
    destruct (negb _); [exact Hsync|]. apply handleAnalysis_inSync; assumption.
  - destruct (isProcessing (app ui)) eqn:E; cbn [negb]; [exact Hsync|].
    apply handleAnalysis_inSync; assumption.
  - unfold inSync in *. cbn [app inflight]. destruct (showsError (app ui));
      exact Hsync.
  - destruct (inflight ui); [reflexivity | exact Hsync].
Qed.

Lemma run_inSync evs :
  forall ui, inSync ui = true -> inSync (run sc toDataURL gc evs ui) = true.
Proof.
  induction evs as [|ev evs IH]; intros ui H; [exact H|].
  cbn [run fold_left]. apply IH. apply step_inSync. exact H.
Qed.

(** In every state the page reaches, a call is in flight exactly when the
    processing flag is set. *)
Lemma inflight_iff_processing offsetWidth offsetHeight evs :
  let ui := run sc toDataURL gc evs (start offsetWidth offsetHeight) in
  inflight ui <> None <-> isProcessing (app ui) = true.
Proof.
  intros ui.
  assert (H : inSync ui = true) by (apply run_inSync; reflexivity).
  unfold inSync in H. apply Bool.eqb_prop in H. rewrite H.
  destruct (inflight ui); split; congruence.
Qed.

(** Pointer events on the surface change nothing while the flag is set. *)
Lemma surface_frozen_while_processing ps :
  forallb DrawingCanvas.isPointer ps = true ->
  forall ui, isProcessing (app ui) = true ->
             run sc toDataURL gc (map OnSurface ps) ui = ui.
Proof.
  induction ps as [|p ps IH]; intros Hps ui Hui; [reflexivity|].
  cbn [forallb] in Hps. apply andb_true_iff in Hps. destruct Hps as [Hp Hps].
  cbn [map run fold_left]. fold (run sc toDataURL gc (map OnSurface ps)).
  assert (E : step sc toDataURL gc (OnSurface p) ui = ui).
  { cbn [step]. rewrite Hui.
    pose proof (SurfaceFacts.pointer_ignored_while_processing sc [p]) as H1.
    cbn [forallb] in H1. rewrite Hp in H1. specialize (H1 eq_refl (surface ui)).
    cbn [DrawingCanvas.run fold_left] in H1. rewrite H1.
    destruct ui; reflexivity. }
  rewrite E. apply (IH Hps). exact Hui.
Qed.

End Page.

(** C9.  In every state the page reaches: while a request is in flight,
    which is when the processing flag is set, a pointer-down on the surface
    changes nothing, and no sequence of pointer events does; in every other
    state a pointer-down begins a new path at the point of the event, sets
    [hasDrawn] and [isDrawing], and leaves the pixels and the controller as
    they are. *)
Theorem startDrawing_only_when_idle :
  forall (sc : Canvas2D.Context2D -> N -> N -> bool)
         (toDataURL : Canvas2D.Bitmap -> string -> Q -> string)
         (gc : Request -> Outcome)
         (offsetWidth offsetHeight : N) (evs : list Event)
         (rect : DrawingCanvas.Rect) (e : DrawingCanvas.PointerEvent),
    let ui := run sc toDataURL gc evs (start offsetWidth offsetHeight) in
    let down := OnSurface (DrawingCanvas.PointerDown rect e) in
    (inflight ui <> None <-> isProcessing (app ui) = true)
    /\ (isProcessing (app ui) = true ->
        step sc toDataURL gc down ui = ui
        /\ forall ps, forallb DrawingCanvas.isPointer ps = true ->
                      run sc toDataURL gc (map OnSurface ps) ui = ui)
    /\ (isProcessing (app ui) = false ->
        let ui' := step sc toDataURL gc down ui in
        let s' := surface ui' in
        app ui' = app ui
        /\ Canvas2D.path (DrawingCanvas.ctx (DrawingCanvas.canvas s'))
           = [{| Canvas2D.points := [DrawingCanvas.getCoordinates rect e];
                 Canvas2D.closed := false |}]
        /\ DrawingCanvas.hasDrawn s' = true
        /\ DrawingCanvas.isDrawing s' = true
        /\ DrawingCanvas.bitmap (DrawingCanvas.canvas s')
           = DrawingCanvas.bitmap (DrawingCanvas.canvas (surface ui))).
Proof.
  intros sc toDataURL gc offsetWidth offsetHeight evs rect e ui down.
  split; [apply inflight_iff_processing|]. split.
  - intros Hbusy. split.
    + apply (surface_frozen_while_processing sc toDataURL gc
               [DrawingCanvas.PointerDown rect e] eq_refl ui Hbusy).
    + intros ps Hps. apply surface_frozen_while_processing; assumption.
  - intros Hidle ui' s'. unfold s', ui', down. cbn [step app surface].
    rewrite Hidle.
    destruct (SurfaceFacts.startDrawing_begins_path rect e (surface ui))
      as (Hpath & Hink & Hdrawing & Hbitmap & _).
    repeat split; assumption.
Qed.

Lemma startDrawing_only_when_idle_witness :
  isProcessing (app pendingPage) = true
  /\ step Canvas2D.roundStroke encoder busyBackend
       (OnSurface (DrawingCanvas.PointerDown origin
                     (DrawingCanvas.MouseEvent 3 3))) pendingPage
     = pendingPage
  /\ isProcessing (app benzeneShown) = false
  /\ DrawingCanvas.hasDrawn
       (surface
          (step Canvas2D.roundStroke encoder busyBackend
             (OnSurface (DrawingCanvas.PointerDown origin
                           (DrawingCanvas.MouseEvent 3 3))) benzeneShown))
     = true.
Proof.
  pose proof (startDrawing_only_when_idle Canvas2D.roundStroke encoder
                busyBackend 4 4 [ChangeText "Benzene"; PressEnter]
                origin (DrawingCanvas.MouseEvent 3 3)) as (_ & Hbusy & _).
  pose proof (startDrawing_only_when_idle Canvas2D.roundStroke encoder
                busyBackend 4 4
                [ChangeText "Benzene"; PressEnter; Settle; ChangeText "Phenol"]
                origin (DrawingCanvas.MouseEvent 3 3)) as (_ & _ & Hidle).
  assert (H1 : isProcessing (app pendingPage) = true)
    by (vm_compute; reflexivity).
  assert (H2 : isProcessing (app benzeneShown) = false)
    by (vm_compute; reflexivity).
  split; [exact H1|]. split; [exact (proj1 (Hbusy H1))|].
  split; [exact H2|].
  destruct (Hidle H2) as (_ & _ & Hink & _). exact Hink.
Defined.

Section Pending.

Variable sc : Canvas2D.Context2D -> N -> N -> bool.
Variable toDataURL : Canvas2D.Bitmap -> string -> Q -> string.
Variable gc : Request -> Outcome.

(** Until it settles, a pending analysis stays pending and the result
    stays empty: no handler can start another analysis. *)
Lemma step_keeps_pending ev ui call :
  isSettle ev = false ->
  isProcessing (app ui) = true /\ result (app ui) = None
  /\ inflight ui = Some call ->
  let ui' := step sc toDataURL gc ev ui in
  isProcessing (app ui') = true /\ result (app ui') = None
  /\ inflight ui' = Some call.
Proof.
  intros Hev (Hbusy & Hres & Hcall).
  destruct ev; try discriminate; cbn [step]; cbn zeta.
  - repeat split; assumption.
  - rewrite Hbusy. repeat split; assumption.
  - rewrite Hbusy. repeat split; assumption.
  - rewrite Hbusy. repeat split; assumption.
  - cbn [app inflight]. destruct (showsError (app ui));
      repeat split; assumption.
  - repeat split; assumption.
  - repeat split; assumption.
Qed.

Lemma run_keeps_pending evs call :
  forallb (fun ev => negb (isSettle ev)) evs = true ->
  forall ui,
    isProcessing (app ui) = true /\ result (app ui) = None
    /\ inflight ui = Some call ->
    let ui' := run sc toDataURL gc evs ui in
    isProcessing (app ui') = true /\ result (app ui') = None
    /\ inflight ui' = Some call.
Proof.
  induction evs as [|ev evs IH]; intros Hevs ui H; [exact H|].
  cbn [forallb] in Hevs. apply andb_true_iff in Hevs.
  destruct Hevs as [Hev Hevs]. apply negb_true_iff in Hev.
  cbn [run fold_left]. apply (IH Hevs).
  apply step_keeps_pending; assumption.
Qed.

(** The controller's own check: without an image and with a blank text box
    it sets its error and returns; nothing is sent, and what was displayed
    stays. *)
Lemma handleAnalysis_without_input ui :
  JS.trim (textInput (app ui)) = EmptyString ->
  handleAnalysis gc None ui
  = {| app := setError (Some "Please draw a structure or enter a name.")
                (app ui);
       surface := surface ui; inflight := inflight ui; sent := sent ui |}.
Proof.
  intros Hblank. unfold handleAnalysis, handleAnalysis_start.
  rewrite Hblank. reflexivity.
Qed.

End Pending.

(** C10.  When [handleAnalysis] goes past its own check, the state in
    which the call is made has the processing flag set and neither a result
    nor an error, whatever was displayed before.  Whatever happens on the
    page until the call settles, the result stays empty.  If the call then
    fails, the result is still empty, the error is the message of the
    failure, and the flag is down: the earlier result is not retained. *)
Theorem pending_clears_result_and_error :
  forall (sc : Canvas2D.Context2D -> N -> N -> bool)
         (toDataURL : Canvas2D.Bitmap -> string -> Q -> string)
         (gc : Request -> Outcome)
         (imageData : option string) (ui : UI) (pending : State)
         (call : Call) (during : list Event) (err : ErrorCategory),
    handleAnalysis_start imageData (app ui) = Awaiting pending call ->
    forallb (fun ev => negb (isSettle ev)) during = true ->
    snd (analyze gc call) = inl err ->
    let ui1 := handleAnalysis gc imageData ui in
    let ui2 := run sc toDataURL gc during ui1 in
    let ui3 := step sc toDataURL gc Settle ui2 in
    (app ui1 = pending /\ result pending = None /\ error pending = None
     /\ isProcessing pending = true /\ inflight ui1 = Some call
     /\ sent ui1 = (sent ui ++ fst (analyze gc call))%list)
    /\ (result (app ui2) = None /\ isProcessing (app ui2) = true)
    /\ (result (app ui3) = None
        /\ error (app ui3) = Some (errorMessage err)
        /\ isProcessing (app ui3) = false).
Proof.
  intros sc toDataURL gc imageData ui pending call during err
         Hstart Hduring Hfail ui1 ui2 ui3.
  assert (E1 : ui1 = {| app := pending; surface := surface ui;
                        inflight := Some call;
                        sent := (sent ui ++ fst (analyze gc call))%list |}).
  { unfold ui1, handleAnalysis. rewrite Hstart. reflexivity. }
  destruct (handleAnalysis_start_pending _ _ _ _ Hstart) as [Hp _].
  assert (Hpend : isProcessing (app ui1) = true /\ result (app ui1) = None
                  /\ inflight ui1 = Some call)
    by (rewrite E1, Hp; repeat split).
  destruct (run_keeps_pending sc toDataURL gc during call Hduring ui1 Hpend)
    as (Hbusy2 & Hres2 & Hcall2). fold ui2 in Hbusy2, Hres2, Hcall2.
  split; [|split].
  - rewrite E1, Hp. repeat split.
  - split; assumption.
  - unfold ui3. cbn [step]. rewrite Hcall2, Hfail.
    cbn [app handleAnalysis_settle setIsProcessing setError result error
         isProcessing].
    repeat split. exact Hres2.
Qed.

Lemma pending_clears_result_and_error_witness :
  result (app benzeneShown) = Some benzeneData
  /\ result
       (app (step Canvas2D.roundStroke encoder busyBackend Settle
               (run Canvas2D.roundStroke encoder busyBackend
                  [ChangeLevel FOUNDATION]
                  (handleAnalysis busyBackend None benzeneShown)))) = None
  /\ error
       (app (step Canvas2D.roundStroke encoder busyBackend Settle
               (run Canvas2D.roundStroke encoder busyBackend
                  [ChangeLevel FOUNDATION]
                  (handleAnalysis busyBackend None benzeneShown))))
     = Some "High Traffic: The service is currently busy. Please try again in a few seconds.".
Proof.
  assert (Hstart :
    handleAnalysis_start None (app benzeneShown)
    = Awaiting
        (setResult None (setError None (setIsProcessing true (app benzeneShown))))
        {| call_image := None; call_text := Some "Phenol";
           call_level := BOARD_LEVEL |})
    by (vm_compute; reflexivity).
  assert (Hfail :
    snd (analyze busyBackend
           {| call_image := None; call_text := Some "Phenol";
              call_level := BOARD_LEVEL |}) = inl RateLimitedError)
    by (vm_compute; reflexivity).
  destruct (pending_clears_result_and_error Canvas2D.roundStroke encoder
              busyBackend None benzeneShown _ _ [ChangeLevel FOUNDATION]
              RateLimitedError Hstart eq_refl Hfail)
    as (_ & _ & Hres & Herr & _).
  split; [vm_compute; reflexivity|]. split; [exact Hres | exact Herr].
Defined.

End AppFacts.

(* ===================================================================== *)
(** ** The pagination of the exported document                            *)
(* ===================================================================== *)

Module ResultCardFacts.

Import ResultCard.

Local Open Scope list_scope.
Local Open Scope Q_scope.

Lemma Qn_S (n : nat) : Qn (S n) == Qn n + 1.
Proof.
  unfold Qn. rewrite Nat2Z.inj_succ. unfold Z.succ.
  rewrite inject_Z_plus. reflexivity.
Qed.

Lemma addImage_last (p : Placement) (pdf : Document) (page : Page) :
  addImage p (pdf ++ [page]) = (pdf ++ [(page ++ [p])%list])%list.
Proof.
  induction pdf as [|first rest IH]; [reflexivity|].
  cbn [app addImage]. rewrite IH.
  destruct (rest ++ [page])%list eqn:E; [|reflexivity].
  destruct rest; discriminate.
Qed.

(** With enough fuel the loop ends, after the least number [n] of rounds
    that brings [heightLeft] below zero, and has laid one page per round. *)
Lemma addPages_ends (fuel : nat) (imgHeight : Q) :
  forall (heightLeft : Q) (pdf : Document),
    heightLeft < pageHeight * Qn fuel ->
    exists n : nat,
      addPages fuel imgHeight heightLeft pdf
      = Some (pdf ++ laidPages imgHeight heightLeft n)%list
      /\ (n <= fuel)%nat
      /\ heightLeft - pageHeight * Qn n < 0
      /\ (forall j : nat, (j < n)%nat -> 0 <= heightLeft - pageHeight * Qn j).
Proof.
  unfold pageHeight.
  induction fuel as [|fuel IH]; intros heightLeft pdf Hfuel.
  - exists O. cbn [addPages laidPages].
    assert (Hneg : heightLeft < 0) by (change (Qn 0) with 0 in Hfuel; lra).
    destruct (Qle_bool 0 heightLeft) eqn:E.
    + apply Qle_bool_iff in E. lra.
    + rewrite app_nil_r. split; [reflexivity|]. split; [lia|].
      split; [change (Qn 0) with 0; lra|]. intros j Hj. lia.
  - cbn [addPages]. destruct (Qle_bool 0 heightLeft) eqn:E.
    + apply Qle_bool_iff in E.
      unfold addPage. rewrite addImage_last. cbn [app].
      rewrite Qn_S in Hfuel.
      destruct (IH (heightLeft - pageHeight)
                  (pdf ++ [[{| y := heightLeft - imgHeight; w := imgWidth;
                               h := imgHeight |}]])%list)
        as (n & Hrun & Hn & Hend & Hbefore).
      { unfold pageHeight. lra. }
      exists (S n). unfold pageHeight in *. split; [|split; [|split]].
      * rewrite Hrun. rewrite <- app_assoc. reflexivity.
      * lia.
      * rewrite Qn_S. lra.
      * intros [|j] Hj.
        -- change (Qn 0) with 0; lra.
        -- rewrite Qn_S. specialize (Hbefore j ltac:(lia)). lra.
    + exists O. cbn [laidPages]. rewrite app_nil_r.
      assert (Hneg : ~ 0 <= heightLeft).
      { intros H. apply Qle_bool_iff in H. congruence. }
      apply Qnot_le_lt in Hneg.
      split; [reflexivity|]. split; [lia|].
      split; [change (Qn 0) with 0; lra|]. intros j Hj. lia.
Qed.

(** More fuel does not change a result. *)
Lemma addPages_more_fuel (fuel : nat) (imgHeight : Q) :
  forall heightLeft pdf result,
    addPages fuel imgHeight heightLeft pdf = Some result ->
    forall fuel', (fuel <= fuel')%nat ->
                  addPages fuel' imgHeight heightLeft pdf = Some result.
Proof.
  induction fuel as [|fuel IH]; intros heightLeft pdf result Hrun fuel' Hle.
  - cbn [addPages] in Hrun. destruct (Qle_bool 0 heightLeft) eqn:E;
      [discriminate|].
    destruct fuel'; cbn [addPages]; rewrite E; exact Hrun.
  - destruct fuel' as [|fuel']; [lia|].
    cbn [addPages] in *. destruct (Qle_bool 0 heightLeft); [|exact Hrun].
    apply (IH _ _ _ Hrun). lia.
Qed.

(** The page laid in round [k] has the image [pageHeight] higher than the
    page before. *)
Lemma laidPages_nth (imgHeight : Q) (n : nat) :
  forall (heightLeft : Q) (k : nat),
    (k < n)%nat ->
    exists p : Placement,
      nth_error (laidPages imgHeight heightLeft n) k = Some [p]
      /\ y p == heightLeft - pageHeight * Qn k - imgHeight
      /\ h p = imgHeight.
Proof.
  induction n as [|n IH]; intros heightLeft k Hk; [lia|].
  destruct k as [|k]; cbn [laidPages nth_error].
  - eexists. split; [reflexivity|]. cbn [y h]. split; [|reflexivity].
    change (Qn 0) with 0. lra.
  - destruct (IH (heightLeft - pageHeight) k ltac:(lia)) as (p & Hp & Hy & Hh).
    exists p. split; [exact Hp|]. split; [|exact Hh].
    rewrite Hy, Qn_S. lra.
Qed.

(** The document for a rendered canvas: with enough fuel the export ends;
    the first page has the image at its top, each of the [n] further pages
    has it one page height higher, and [n] is the number of rounds after
    which the height left is below zero, so that [n] whole page heights fit
    in the height of the image and [n + 1] do not. *)
Lemma paginate_pages (fuel : nat) (canvasWidth canvasHeight : Z) :
  let imgHeight :=
    (inject_Z canvasHeight * imgWidth) / inject_Z canvasWidth in
  imgHeight - pageHeight < pageHeight * Qn fuel ->
  exists n : nat,
    handleDownloadPDF fuel canvasWidth canvasHeight
    = Some ([{| y := 0; w := imgWidth; h := imgHeight |}]
            :: laidPages imgHeight (imgHeight - pageHeight) n)
    /\ imgHeight < pageHeight * Qn (S n)
    /\ (forall j : nat, (j < n)%nat -> pageHeight * Qn (S j) <= imgHeight).
Proof.
  intros imgHeight Hfuel.
  destruct (addPages_ends fuel imgHeight (imgHeight - pageHeight)
              [[{| y := 0; w := imgWidth; h := imgHeight |}]] Hfuel)
    as (n & Hrun & _ & Hend & Hbefore).
  exists n. split; [exact Hrun|]. split.
  - rewrite Qn_S. lra.
  - intros j Hj. specialize (Hbefore j Hj). rewrite Qn_S. lra.
Qed.

(** A page shows some of the image when the image starts above the bottom
    of the page and ends below its top. *)
Lemma showsImage_iff (p : Placement) :
  showsImage p = true <-> 0 < h p /\ - y p < h p /\ y p < pageHeight.
Proof.
  unfold showsImage, bandTop, bandBottom, pageHeight.
  rewrite negb_true_iff.
  assert (E : Qle_bool (Qmin (h p) (297 - y p)) (Qmax 0 (- y p)) = false
              <-> Qmax 0 (- y p) < Qmin (h p) (297 - y p)).
  { split.
    - intros E. apply Qnot_le_lt. intros L.
      apply Qle_bool_iff in L. congruence.
    - intros L. destruct (Qle_bool _ _) eqn:E; [|reflexivity].
      apply Qle_bool_iff in E. lra. }
  rewrite E.
  destruct (Q.max_spec 0 (- y p)) as [[M1 M2]|[M1 M2]];
    destruct (Q.min_spec (h p) (297 - y p)) as [[N1 N2]|[N1 N2]];
    rewrite M2, N2; split; intros; repeat split; lra.
Qed.

(** Of the pages the export lays after the first, all but the last show a
    band of the image, and the last one shows one exactly when the height
    of the image is not a whole number of page heights. *)
Lemma laid_page_shows (fuel : nat) (canvasWidth canvasHeight : Z) :
  let imgHeight :=
    (inject_Z canvasHeight * imgWidth) / inject_Z canvasWidth in
  imgHeight - pageHeight < pageHeight * Qn fuel ->
  exists n : nat,
    handleDownloadPDF fuel canvasWidth canvasHeight
    = Some ([{| y := 0; w := imgWidth; h := imgHeight |}]
            :: laidPages imgHeight (imgHeight - pageHeight) n)
    /\ (pageHeight < imgHeight -> (1 <= n)%nat)
    /\ forall k : nat, (k < n)%nat ->
         exists p : Placement,
           nth_error (laidPages imgHeight (imgHeight - pageHeight) n) k
           = Some [p]
           /\ y p == - (pageHeight * Qn (S k))
           /\ (showsImage p = true <-> pageHeight * Qn (S k) < imgHeight).
Proof.
  intros imgHeight Hfuel.
  destruct (paginate_pages fuel canvasWidth canvasHeight Hfuel)
    as (n & Hrun & Hend & Hbefore).
  fold imgHeight in Hrun, Hend, Hbefore.
  exists n. split; [exact Hrun|]. split.
  - intros Htall. destruct n; [|lia].
    rewrite Qn_S in Hend. change (Qn 0) with 0 in Hend.
    unfold pageHeight in *. lra.
  - intros k Hk.
    destruct (laidPages_nth imgHeight n (imgHeight - pageHeight) k Hk)
      as (p & Hp & Hy & Hh).
    specialize (Hbefore k Hk).
    assert (Hy' : y p == - (pageHeight * Qn (S k)))
      by (rewrite Hy, Qn_S; unfold pageHeight; lra).
    assert (Hk0 : 0 <= Qn k)
      by (unfold Qn; change 0 with (inject_Z 0); rewrite <- Zle_Qle; lia).
    exists p. split; [exact Hp|]. split; [exact Hy'|].
    rewrite showsImage_iff, Hh.
    rewrite Qn_S in *. unfold pageHeight in *. split.
    + intros (_ & A & _). lra.
    + intros A. repeat split; lra.
Qed.

(** C7, at a height of exactly seven pages.  A rendered canvas of 1600 by
    15840 pixels is 2079 mm high at a width of 210 mm, seven times 297.
    The loop runs once more when the height left is zero: the document has
    eight pages, the image is placed one page height higher on each, and
    on the eighth it lies entirely above the page, which shows none of
    it. *)
Theorem exact_multiple_ends_with_blank_page :
  forall extra : nat,
  exists pages : Document,
    handleDownloadPDF (7 + extra) 1600 15840 = Some pages
    /\ map (map (fun p => Qred (y p))) pages
       = [[0]; [-(297)]; [-(594)]; [-(891)]; [-(1188)]; [-(1485)];
          [-(1782)]; [-(2079)]]
    /\ map (map (fun p => Qred (h p))) pages
       = [[2079]; [2079]; [2079]; [2079]; [2079]; [2079]; [2079]; [2079]]
    /\ map (map showsImage) pages
       = [[true]; [true]; [true]; [true]; [true]; [true]; [true]; [false]].
Proof.
  intros extra.
  assert (H7 : exists pages, handleDownloadPDF 7 1600 15840 = Some pages
    /\ map (map (fun p => Qred (y p))) pages
       = [[0]; [-(297)]; [-(594)]; [-(891)]; [-(1188)]; [-(1485)];
          [-(1782)]; [-(2079)]]
    /\ map (map (fun p => Qred (h p))) pages
       = [[2079]; [2079]; [2079]; [2079]; [2079]; [2079]; [2079]; [2079]]
    /\ map (map showsImage) pages
       = [[true]; [true]; [true]; [true]; [true]; [true]; [true]; [false]]).
  { eexists. split; [vm_compute; reflexivity|].
    split; [vm_compute; reflexivity|].
    split; vm_compute; reflexivity. }
  destruct H7 as (pages & Hrun & Hrest). exists pages. split; [|exact Hrest].
  unfold handleDownloadPDF in *.
  apply (addPages_more_fuel 7 _ _ _ _ Hrun). lia.
Qed.

(** One pixel row more and the eighth page shows the end of the image. *)
Example one_more_row_fills_last_page :
  exists pages : Document,
    handleDownloadPDF 7 1600 15841 = Some pages
    /\ map (map showsImage) pages
       = [[true]; [true]; [true]; [true]; [true]; [true]; [true]; [true]].
Proof. eexists. split; vm_compute; reflexivity. Qed.

End ResultCardFacts.

(* ===================================================================== *)
(** ** More on the request builder                                        *)
(* ===================================================================== *)

Module RequestFacts.

Import Gemini Examples Predicates GeminiFacts.

Lemma append_assoc (a b c : string) : (a ++ b) ++ c = a ++ b ++ c.
Proof. induction a as [|x a IH]; [reflexivity|]. simpl. rewrite IH. reflexivity. Qed.

Lemma append_inv_head (a b c : string) : a ++ b = a ++ c -> b = c.
Proof.
  induction a as [|x a IH]; intros H; [exact H|].
  simpl in H. injection H as H. exact (IH H).
Qed.

Lemma length_append (a b : string) :
  String.length (a ++ b) = (String.length a + String.length b)%nat.
Proof. induction a as [|x a IH]; [reflexivity|]. simpl. rewrite IH. reflexivity. Qed.

Lemma dropWhile_append f (a b : string) :
  allChars f a = true -> JS.dropWhile f (a ++ b) = JS.dropWhile f b.
Proof.
  induction a as [|x a IH]; intros H; [reflexivity|].
  simpl in H. apply andb_true_iff in H. destruct H as [Hx Ha].
  simpl. rewrite Hx. exact (IH Ha).
Qed.

(** The header of a base64 data URL is cut off whatever its subtype. *)
Lemma stripDataUrl_header (subtype payload : string) :
  allChars JS.isWordChar subtype = true -> subtype <> EmptyString ->
  stripDataUrl ("data:image/" ++ subtype ++ ";base64," ++ payload) = payload.
Proof.
  intros Hword Hne. unfold stripDataUrl.
  change (JS.startsWith "data:image/"
            ("data:image/" ++ subtype ++ ";base64," ++ payload)) with true.
  change (JS.drop 11 ("data:image/" ++ subtype ++ ";base64," ++ payload))
    with (subtype ++ ";base64," ++ payload).
  cbv iota. rewrite (dropWhile_append _ _ _ Hword).
  change (JS.dropWhile JS.isWordChar (";base64," ++ payload))
    with (";base64," ++ payload).
  rewrite (length_append subtype).
  assert (Hlt : (String.length (";base64," ++ payload)
                 <? String.length subtype
                    + String.length (";base64," ++ payload))%nat = true).
  { apply Nat.ltb_lt. destruct subtype; [contradiction|]. simpl. lia. }
  rewrite Hlt. reflexivity.
Qed.

(** The type is read off the four characters after the slash. *)
Lemma mimeTypeOf_header (subtype payload : string) :
  mimeTypeOf ("data:image/" ++ subtype ++ ";base64," ++ payload)
  = if JS.startsWith "jpeg" subtype then "image/jpeg" else "image/png".
Proof.
  unfold mimeTypeOf.
  assert (E : JS.startsWith "data:image/jpeg"
                ("data:image/" ++ subtype ++ ";base64," ++ payload)
              = JS.startsWith "jpeg" subtype).
  { change (JS.startsWith "data:image/jpeg"
              ("data:image/" ++ subtype ++ ";base64," ++ payload))
      with (JS.startsWith "jpeg" (subtype ++ ";base64," ++ payload)).
    destruct subtype as [|a [|b [|c [|d s]]]]; cbn;
      repeat (match goal with
              | |- context [Ascii.eqb ?x ?y] => destruct (Ascii.eqb x y)
              end; cbn);
      reflexivity. }
  rewrite E. reflexivity.
Qed.

(** X1.  A still written as a base64 data URL of any image subtype goes
    out as one image part holding the payload alone; the part is typed
    JPEG when the subtype starts with [jpeg] and PNG for every other
    subtype. *)
Theorem data_url_is_split_into_payload_and_type :
  forall (subtype payload : string) textInput level,
    allChars JS.isWordChar subtype = true ->
    subtype <> EmptyString ->
    let image := "data:image/" ++ subtype ++ ";base64," ++ payload in
    buildParts (Some image) textInput level
    = [ inlineData payload
          (if JS.startsWith "jpeg" subtype then "image/jpeg" else "image/png");
        text (promptText (Some image) textInput level) ].
Proof.
  intros subtype payload textInput level Hword Hne image.
  unfold buildParts.
  assert (Himage : exists a s, image = String a s)
    by (exists "d"%char; eexists; reflexivity).
  destruct Himage as (a & s & E). rewrite E at 1. rewrite <- E.
  unfold image at 1 2.
  rewrite (stripDataUrl_header _ _ Hword Hne), mimeTypeOf_header.
  reflexivity.
Qed.

Lemma data_url_is_split_into_payload_and_type_witness :
  allChars JS.isWordChar "webp" = true
  /\ "webp" <> EmptyString
  /\ buildParts (Some "data:image/webp;base64,UklGRg") None FOUNDATION
     = [ inlineData "UklGRg" "image/png";
         text (promptText (Some "data:image/webp;base64,UklGRg") None
                 FOUNDATION) ].
Proof.
  split; [reflexivity|]. split; [discriminate|].
  apply (data_url_is_split_into_payload_and_type "webp" "UklGRg" None
           FOUNDATION); [reflexivity | discriminate].
Defined.

Lemma startsWith_append_false (p q s : string) :
  JS.startsWith p s = false -> JS.startsWith (p ++ q) s = false.
Proof.
  revert s. induction p as [|a p IH]; intros s H; [discriminate|].
  destruct s as [|b s]; [reflexivity|].
  simpl in *. destruct (Ascii.eqb a b); [|reflexivity].
  simpl in *. exact (IH s H).
Qed.

(** X2.  A still that is not empty and does not start with the header
    [data:image/] goes out as it is, typed PNG. *)
Theorem other_strings_go_out_unchanged_as_png :
  forall (image : string) textInput level,
    image <> EmptyString ->
    JS.startsWith "data:image/" image = false ->
    buildParts (Some image) textInput level
    = [ inlineData image "image/png";
        text (promptText (Some image) textInput level) ].
Proof.
  intros image textInput level Hne Hhead. unfold buildParts.
  destruct image as [|a s]; [contradiction|].
  unfold stripDataUrl, mimeTypeOf. rewrite Hhead.
  change "data:image/jpeg" with ("data:image/" ++ "jpeg").
  rewrite (startsWith_append_false _ _ _ Hhead). reflexivity.
Qed.

Lemma other_strings_go_out_unchanged_as_png_witness :
  "data:," <> EmptyString
  /\ JS.startsWith "data:image/" "data:," = false
  /\ buildParts (Some "data:,") (Some "Benzene") BOARD_LEVEL
     = [ inlineData "data:," "image/png";
         text (promptText (Some "data:,") (Some "Benzene") BOARD_LEVEL) ].
Proof.
  split; [discriminate|]. split; [reflexivity|].
  apply (other_strings_go_out_unchanged_as_png "data:," (Some "Benzene")
           BOARD_LEVEL); [discriminate | reflexivity].
Defined.

(** X3.  Whatever level is selected, the text part holds the directive of
    each of the four levels: the level chooses none of them, it is only
    named in the text. *)
Theorem prompt_holds_every_directive :
  forall imageData textInput (level other : EducationLevel),
    JS.includes (directive other) (promptText imageData textInput level)
    = true.
Proof.
  intros imageData textInput level other.
  assert (Hbase : forall source,
    JS.includes (directive other)
      (promptIntro ++ source ++ promptAudience ++ levelValue level
       ++ promptOutline ++ levelValue level ++ promptDirectives) = true).
  { intros source. do 6 apply includes_app_r. apply directive_in_template. }
  unfold promptText. destruct textInput as [[|a s]|].
  - apply Hbase.
  - apply includes_app_l. apply Hbase.
  - apply Hbase.
Qed.

(** X4.  Two calls that differ only in the level send different text
    parts. *)
Theorem prompt_tells_levels_apart :
  forall imageData textInput (level1 level2 : EducationLevel),
    level1 <> level2 ->
    promptText imageData textInput level1
    <> promptText imageData textInput level2.
Proof.
  intros imageData textInput level1 level2 Hdiff H. apply Hdiff.
  assert (Hlevels :
    forall rest1 rest2 : string,
      levelValue level1 ++ rest1 = levelValue level2 ++ rest2 ->
      level1 = level2).
  { intros rest1 rest2 E.
    destruct level1, level2; try reflexivity;
      cbn [levelValue append] in E; discriminate E. }
  unfold promptText in H.
  destruct textInput as [[|a s]|]; rewrite ?append_assoc in H;
    apply append_inv_head in H; apply append_inv_head in H;
    apply append_inv_head in H; exact (Hlevels _ _ H).
Qed.

Lemma prompt_tells_levels_apart_witness :
  FOUNDATION <> COMPETITIVE
  /\ promptText None (Some "Benzene") FOUNDATION
     <> promptText None (Some "Benzene") COMPETITIVE.
Proof.
  split; [discriminate|].
  apply (prompt_tells_levels_apart None (Some "Benzene")
           FOUNDATION COMPETITIVE).
  discriminate.
Defined.

(** X5.  When the call resolves with no text or an empty text, the
    analysis fails with the message of the block itself, passed on word
    for word: it matches none of the patterns of the [catch]. *)
Theorem empty_response_is_reported_verbatim :
  forall (gc : Request -> Outcome) imageData textInput level response,
    JS.truthy imageData || JS.truthy textInput = true ->
    gc (buildRequest imageData textInput level) = Resolved response ->
    JS.truthy (response_text response) = false ->
    analyzeChemicalStructure gc imageData textInput level
    = ([buildRequest imageData textInput level],
       inl (UnknownError "Empty response received from AI model.")).
Proof.
  intros gc imageData textInput level response Hin Hgc Hempty.
  rewrite (analyze_with_input _ _ _ _ Hin), Hgc.
  destruct response as [[[|a s]|]]; try discriminate; reflexivity.
Qed.

Lemma empty_response_is_reported_verbatim_witness :
  (JS.truthy (Some still) || JS.truthy None = true)
  /\ JS.truthy (Some EmptyString) = false
  /\ analyzeChemicalStructure (answering EmptyString)
       (Some still) None UNDERGRADUATE
     = ([buildRequest (Some still) None UNDERGRADUATE],
        inl (UnknownError "Empty response received from AI model.")).
Proof.
  split; [reflexivity|]. split; [reflexivity|].
  apply (empty_response_is_reported_verbatim (answering EmptyString)
           (Some still) None UNDERGRADUATE
           {| response_text := Some EmptyString |}); reflexivity.
Defined.

End RequestFacts.

(* ===================================================================== *)
(** ** More on the drawing surface                                        *)
(* ===================================================================== *)

Module InkFacts.

Import Canvas2D DrawingCanvas Examples MoreExamples Predicates.

(** What [handleResize] builds when the buffer has no zero dimension. *)
Lemma handleResize_built (w h : N) (s : State) :
  (0 < width (bitmap (canvas s)))%N ->
  (0 < height (bitmap (canvas s)))%N ->
  handleResize w h s
  = with_canvas
      {| bitmap :=
           drawImage
             (drawImage (bitmap (canvas s))
                (blank (width (bitmap (canvas s)))
                   (height (bitmap (canvas s)))))
             (fillRect 0 0 w h white (blank w h));
         ctx := set_fillStyle white (set_round defaultContext) |} s.
Proof.
  intros Hw Hh. unfold handleResize.
  destruct (N.eqb_spec (width (bitmap (canvas s))) 0) as [E|_]; [lia|].
  destruct (N.eqb_spec (height (bitmap (canvas s))) 0) as [E|_]; [lia|].
  reflexivity.
Qed.

Lemma handleResize_size (w h : N) (s : State) :
  (0 < width (bitmap (canvas s)))%N ->
  (0 < height (bitmap (canvas s)))%N ->
  width (bitmap (canvas (handleResize w h s))) = w
  /\ height (bitmap (canvas (handleResize w h s))) = h.
Proof.
  intros Hw Hh. rewrite (handleResize_built w h s Hw Hh). split; reflexivity.
Qed.

(** A pixel of the resized buffer: the old pixel where there was one, white
    elsewhere. *)
Lemma handleResize_pixel (w h : N) (s : State) (x y : N) :
  (0 < width (bitmap (canvas s)))%N ->
  (0 < height (bitmap (canvas s)))%N ->
  (x < w)%N -> (y < h)%N ->
  getPixel (bitmap (canvas (handleResize w h s))) x y
  = match getPixel (bitmap (canvas s)) x y with
    | Some ink => Some ink
    | None => Some white
    end.
Proof.
  intros Hw Hh Hx Hy. rewrite (handleResize_built w h s Hw Hh).
  cbn [canvas with_canvas bitmap].
  unfold getPixel at 1, inside.
  cbn [drawImage fillRect blank width height pixels].
  rewrite SurfaceFacts.getPixel_copy.
  apply N.ltb_lt in Hx, Hy. rewrite Hx, Hy. cbn [andb].
  destruct (getPixel (bitmap (canvas s)) x y); [reflexivity|].
  assert (Hx0 : (0 <=? x)%N = true) by (apply N.leb_le; lia).
  assert (Hy0 : (0 <=? y)%N = true) by (apply N.leb_le; lia).
  rewrite !N.add_0_l, Hx, Hy, Hx0, Hy0. reflexivity.
Qed.

Lemma inside_bounds (b : Bitmap) (x y : N) :
  inside b x y = true <-> (x < width b)%N /\ (y < height b)%N.
Proof.
  unfold inside. rewrite andb_true_iff, !N.ltb_lt. reflexivity.
Qed.

(** Every resize leaves the buffer opaque: it repaints a buffer that has
    pixels, and a buffer with a zero dimension has none. *)
Lemma first_resize_opaque (w h : N) (s : State) :
  opaque (bitmap (canvas (handleResize w h s))).
Proof.
  destruct (N.eq_dec (width (bitmap (canvas s))) 0) as [Ew|Ew];
    [|destruct (N.eq_dec (height (bitmap (canvas s))) 0) as [Eh|Eh]].
  - unfold handleResize. rewrite Ew. cbn [N.eqb orb].
    intros x y Hin. apply inside_bounds in Hin. lia.
  - unfold handleResize. rewrite Eh, orb_true_r.
    intros x y Hin. apply inside_bounds in Hin. lia.
  - assert (Hw : (0 < width (bitmap (canvas s)))%N) by lia.
    assert (Hh : (0 < height (bitmap (canvas s)))%N) by lia.
    intros x y Hin. apply inside_bounds in Hin.
    destruct (handleResize_size w h s Hw Hh) as [Sw Sh].
    rewrite Sw, Sh in Hin. destruct Hin as [Hx Hy].
    rewrite (handleResize_pixel w h s x y Hw Hh Hx Hy).
    destruct (getPixel (bitmap (canvas s)) x y); discriminate.
Qed.

Lemma paint_opaque covers color (b : Bitmap) :
  opaque b -> opaque (paint covers color b).
Proof.
  intros Hb x y Hin. specialize (Hb x y Hin).
  unfold getPixel in *. change (inside (paint covers color b) x y)
    with (inside b x y). change (inside (paint covers color b) x y)
    with (inside b x y) in Hin. rewrite Hin in *.
  cbn [paint pixels]. destruct (covers x y); [discriminate | exact Hb].
Qed.

Lemma step_opaque sc isProcessing ev (s : State) :
  opaque (bitmap (canvas s)) ->
  opaque (bitmap (canvas (step sc isProcessing ev s))).
Proof.
  intros Hs. destruct ev; cbn [step].
  - apply first_resize_opaque.
  - unfold startDrawing. destruct isProcessing; exact Hs.
  - unfold draw. destruct (_ || _)%bool; [exact Hs|].
    cbn [with_canvas canvas bitmap]. apply paint_opaque. exact Hs.
  - unfold stopDrawing. destruct isProcessing; exact Hs.
  - exact Hs.
  - intros x y Hin. unfold clearCanvas in *. cbn [canvas bitmap] in *.
    apply inside_bounds in Hin. cbn [fillRect width height] in Hin.
    destruct Hin as [Hx Hy].
    unfold getPixel, inside. cbn [fillRect width height pixels].
    apply N.ltb_lt in Hx, Hy. rewrite Hx, Hy. cbn [andb].
    assert (Hx0 : (0 <=? x)%N = true) by (apply N.leb_le; lia).
    assert (Hy0 : (0 <=? y)%N = true) by (apply N.leb_le; lia).
    rewrite !N.add_0_l, Hx, Hy, Hx0, Hy0. discriminate.
Qed.

(** X6.  Once the surface has been through a resize, which the timer set
    at mount brings, every pixel of its buffer is painted, and it stays so
    through any events: resizes, strokes with either tool, and clearing.
    An exported still then has no transparent pixel. *)
Theorem buffer_stays_opaque_after_resize :
  forall (sc : Context2D -> N -> N -> bool) (isProcessing : bool)
         (w h : N) (s : State) (evs : list Event) (x y : N),
    let s' := run sc isProcessing evs (handleResize w h s) in
    inside (bitmap (canvas s')) x y = true ->
    exists color : Color, getPixel (bitmap (canvas s')) x y = Some color.
Proof.
  intros sc isProcessing w h s evs x y s' Hin.
  assert (H : opaque (bitmap (canvas s'))).
  { unfold s'. generalize (first_resize_opaque w h s).
    generalize (handleResize w h s). clear.
    induction evs as [|ev evs IH]; intros st Hst; [exact Hst|].
    cbn [run fold_left]. apply IH. apply step_opaque. exact Hst. }
  specialize (H x y Hin).
  destruct (getPixel (bitmap (canvas s')) x y) as [c|];
    [exists c; reflexivity | contradiction].
Qed.

Lemma buffer_stays_opaque_after_resize_witness :
  inside (bitmap (canvas cornerDrawn)) 0 0 = true
  /\ exists color : Color,
       getPixel (bitmap (canvas cornerDrawn)) 0 0 = Some color.
Proof.
  split; [reflexivity|].
  apply (buffer_stays_opaque_after_resize roundStroke false 4 4 (mount 4 4)
           [ PointerDown origin (MouseEvent 3 3);
             PointerMove origin (MouseEvent 3 2); PointerUp ] 0 0).
  reflexivity.
Defined.

(** X7.  While no stroke is in progress, moving and releasing the pointer
    paints nothing: the buffer, [hasDrawn] and [isDrawing] are as before. *)
Theorem hovering_paints_nothing :
  forall (sc : Context2D -> N -> N -> bool) (isProcessing : bool)
         (evs : list Event) (s : State),
    forallb isHover evs = true ->
    isDrawing s = false ->
    let s' := run sc isProcessing evs s in
    bitmap (canvas s') = bitmap (canvas s)
    /\ hasDrawn s' = hasDrawn s /\ isDrawing s' = false.
Proof.
  intros sc isProcessing evs.
  induction evs as [|ev evs IH]; intros s Hevs Hidle; [repeat split; exact Hidle|].
  cbn [forallb] in Hevs. apply andb_true_iff in Hevs.
  destruct Hevs as [Hev Hevs]. cbn [run fold_left].
  fold (run sc isProcessing evs (step sc isProcessing ev s)).
  assert (Hstep : bitmap (canvas (step sc isProcessing ev s))
                  = bitmap (canvas s)
                  /\ hasDrawn (step sc isProcessing ev s) = hasDrawn s
                  /\ isDrawing (step sc isProcessing ev s) = false).
  { destruct ev; try discriminate; cbn [step].
    - unfold draw. rewrite Hidle. cbn [negb orb]. repeat split. exact Hidle.
    - unfold stopDrawing. destruct isProcessing; repeat split; exact Hidle. }
  destruct Hstep as (Hb & Hd & Hi).
  destruct (IH _ Hevs Hi) as (Hb' & Hd' & Hi').
  cbn zeta. rewrite Hb', Hd', Hb, Hd. repeat split. exact Hi'.
Qed.

Lemma hovering_paints_nothing_witness :
  forallb isHover
    [PointerMove origin (MouseEvent 1 1); PointerUp;
     PointerMove origin (MouseEvent 2 2)] = true
  /\ isDrawing cornerDrawn = false
  /\ bitmap (canvas
               (run roundStroke false
                  [PointerMove origin (MouseEvent 1 1); PointerUp;
                   PointerMove origin (MouseEvent 2 2)] cornerDrawn))
     = bitmap (canvas cornerDrawn).
Proof.
  split; [reflexivity|]. split; [reflexivity|].
  apply (hovering_paints_nothing roundStroke false
           [PointerMove origin (MouseEvent 1 1); PointerUp;
            PointerMove origin (MouseEvent 2 2)] cornerDrawn);
    reflexivity.
Defined.

Lemma strokeStyle_lineTo (p : Point) (c : Context2D) :
  strokeStyle (lineTo p c) = strokeStyle c.
Proof. unfold lineTo. destruct (path c); reflexivity. Qed.

(** X8.  Clearing does not end a stroke in progress.  When the pointer
    moves on after the clear, the pixels the stroke covers take the colour
    of the tool, yet [hasDrawn] stays false and a capture hands over
    [null]. *)
Theorem stroke_continued_after_clear_is_not_reported :
  forall (sc : Context2D -> N -> N -> bool)
         (toDataURL : Bitmap -> string -> Q -> string)
         (rect : Rect) (e : PointerEvent) (s : State) (x y : N),
    isDrawing s = true ->
    let s' := draw sc false rect e (clearCanvas s) in
    inside (bitmap (canvas s')) x y = true ->
    sc (ctx (canvas s')) x y = true ->
    getPixel (bitmap (canvas s')) x y
    = Some (match tool s with eraser => white | pen => strokeColor end)
    /\ hasDrawn s' = false
    /\ handleCapture toDataURL s' = None.
Proof.
  intros sc toDataURL rect e s x y Hdrawing s'. subst s'.
  unfold draw. change (isDrawing (clearCanvas s)) with (isDrawing s).
  rewrite Hdrawing. cbn [negb orb].
  change (tool (clearCanvas s)) with (tool s).
  cbn [with_canvas canvas bitmap ctx].
  intros Hin Hcov. split; [|split; reflexivity].
  unfold getPixel. change (inside (paint ?c ?k ?b) x y) with (inside b x y).
  change (inside (paint ?c ?k ?b) x y) with (inside b x y) in Hin.
  rewrite Hin. cbn [paint pixels]. rewrite Hcov, strokeStyle_lineTo.
  destruct (tool s); reflexivity.
Qed.

Lemma stroke_continued_after_clear_is_not_reported_witness :
  isDrawing pressed = true
  /\ getPixel
       (bitmap (canvas (draw roundStroke false origin (MouseEvent 3 2)
                          (clearCanvas pressed)))) 3 3
     = Some strokeColor
  /\ handleCapture encoder
       (draw roundStroke false origin (MouseEvent 3 2) (clearCanvas pressed))
     = None.
Proof.
  destruct (stroke_continued_after_clear_is_not_reported roundStroke encoder
              origin (MouseEvent 3 2) pressed 3 3 eq_refl eq_refl eq_refl)
    as (Hink & _ & Hnull).
  split; [reflexivity|]. split; [exact Hink | exact Hnull].
Defined.

(** Presses and releases leave the buffer as it is. *)
Lemma click_keeps_bitmap sc ev (s : State) :
  isClick ev = true ->
  bitmap (canvas (step sc false ev s)) = bitmap (canvas s).
Proof. destruct ev; try discriminate; reflexivity. Qed.

Lemma click_keeps_drawn sc ev (s : State) :
  isClick ev = true ->
  hasDrawn (step sc false ev s) = (startsStroke ev || hasDrawn s)%bool.
Proof. destruct ev; try discriminate; reflexivity. Qed.

(** X9.  A press marks the surface as drawn even when no ink follows:
    after presses and releases without a move, the buffer is unchanged, and
    as soon as one press is among them a capture hands over the encoding of
    that unchanged buffer, as a JPEG of quality 0.7. *)
Theorem press_without_move_counts_as_drawing :
  forall (sc : Context2D -> N -> N -> bool)
         (toDataURL : Bitmap -> string -> Q -> string)
         (evs : list Event) (s : State),
    forallb isClick evs = true ->
    existsb startsStroke evs = true ->
    let s' := run sc false evs s in
    bitmap (canvas s') = bitmap (canvas s)
    /\ hasDrawn s' = true
    /\ handleCapture toDataURL s'
       = Some (toDataURL (bitmap (canvas s)) "image/jpeg" (7 # 10)%Q).
Proof.
  intros sc toDataURL evs s Hclicks Hpress s'.
  assert (H : bitmap (canvas s') = bitmap (canvas s)
              /\ hasDrawn s' = (existsb startsStroke evs || hasDrawn s)%bool).
  { unfold s'. clear Hpress s'. revert s.
    induction evs as [|ev evs IH]; intros s; [split; reflexivity|].
    cbn [forallb] in Hclicks. apply andb_true_iff in Hclicks.
    destruct Hclicks as [Hev Hevs]. cbn [run fold_left existsb].
    destruct (IH Hevs (step sc false ev s)) as [Hb Hd].
    fold (run sc false evs (step sc false ev s)).
    rewrite Hb, Hd, (click_keeps_bitmap sc ev s Hev),
      (click_keeps_drawn sc ev s Hev).
    split; [reflexivity|].
    destruct (startsStroke ev), (existsb startsStroke evs), (hasDrawn s);
      reflexivity. }
  destruct H as [Hb Hd]. rewrite Hpress in Hd. cbn [orb] in Hd.
  split; [exact Hb|]. split; [exact Hd|].
  unfold handleCapture. rewrite Hd, Hb. reflexivity.
Qed.

Lemma press_without_move_counts_as_drawing_witness :
  forallb isClick [PointerDown origin (MouseEvent 1 1); PointerUp] = true
  /\ existsb startsStroke [PointerDown origin (MouseEvent 1 1); PointerUp]
     = true
  /\ hasDrawn (mount 4 4) = false
  /\ handleCapture encoder
       (run roundStroke false
          [PointerDown origin (MouseEvent 1 1); PointerUp] (mount 4 4))
     = Some (encoder (bitmap (canvas (mount 4 4))) "image/jpeg" (7 # 10)%Q).
Proof.
  split; [reflexivity|]. split; [reflexivity|]. split; [reflexivity|].
  apply (press_without_move_counts_as_drawing roundStroke encoder
           [PointerDown origin (MouseEvent 1 1); PointerUp] (mount 4 4));
    reflexivity.
Defined.

(** X10.  What a resize crops does not come back: after a resize to a
    smaller size and a second resize to a larger one, every pixel beyond
    the smaller size is white, whatever was drawn there. *)
Theorem cropped_ink_does_not_come_back :
  forall (w1 h1 w2 h2 : N) (s : State) (x y : N),
    (0 < width (bitmap (canvas s)))%N ->
    (0 < height (bitmap (canvas s)))%N ->
    (0 < w1)%N -> (0 < h1)%N ->
    (w1 <= x)%N \/ (h1 <= y)%N ->
    (x < w2)%N -> (y < h2)%N ->
    getPixel
      (bitmap (canvas (handleResize w2 h2 (handleResize w1 h1 s)))) x y
    = Some white.
Proof.
  intros w1 h1 w2 h2 s x y Hw Hh Hw1 Hh1 Hout Hx Hy.
  destruct (handleResize_size w1 h1 s Hw Hh) as [Sw Sh].
  rewrite handleResize_pixel; try assumption; try (rewrite ?Sw, ?Sh; assumption).
  assert (E : getPixel (bitmap (canvas (handleResize w1 h1 s))) x y = None).
  { unfold getPixel, inside. rewrite Sw, Sh.
    destruct Hout as [H|H]; apply N.ltb_ge in H; rewrite H;
      [|rewrite andb_false_r]; reflexivity. }
  rewrite E. reflexivity.
Qed.

Lemma cropped_ink_does_not_come_back_witness :
  getPixel (bitmap (canvas cornerDrawn)) 3 3 = Some strokeColor
  /\ getPixel
       (bitmap (canvas (handleResize 4 4 (handleResize 2 2 cornerDrawn))))
       3 3
     = Some white.
Proof.
  split; [reflexivity|].
  apply (cropped_ink_does_not_come_back 2 2 4 4 cornerDrawn 3 3);
    try reflexivity.
  left. discriminate.
Defined.

End InkFacts.

(* ===================================================================== *)
(** ** More on the controller                                             *)
(* ===================================================================== *)

Module PageFacts.

Import Gemini App Examples MoreExamples.

Section Page.

Variable sc : Canvas2D.Context2D -> N -> N -> bool.
Variable toDataURL : Canvas2D.Bitmap -> string -> Q -> string.
Variable gc : Request -> Outcome.

(** While the flag is set, an event other than the settling of the call
    leaves the flag, the call, the requests sent and the result as they
    are, and sets no error. *)
Lemma step_while_processing ev ui :
  isSettle ev = false -> isProcessing (app ui) = true ->
  let ui' := step sc toDataURL gc ev ui in
  isProcessing (app ui') = true /\ inflight ui' = inflight ui
  /\ sent ui' = sent ui /\ result (app ui') = result (app ui)
  /\ (error (app ui) = None -> error (app ui') = None).
Proof.
  intros Hev Hbusy.
  destruct ev; try discriminate; cbn [step]; cbn zeta;
    rewrite ?Hbusy; cbn [orb negb app inflight sent];
    try (repeat split; solve [assumption | auto]).
  destruct (showsError (app ui)); repeat split; auto.
Qed.

Lemma run_while_processing evs :
  forallb (fun ev => negb (isSettle ev)) evs = true ->
  forall ui, isProcessing (app ui) = true ->
    let ui' := run sc toDataURL gc evs ui in
    isProcessing (app ui') = true /\ inflight ui' = inflight ui
    /\ sent ui' = sent ui /\ result (app ui') = result (app ui)
    /\ (error (app ui) = None -> error (app ui') = None).
Proof.
  induction evs as [|ev evs IH]; intros Hevs ui Hbusy;
    [repeat split; auto|].
  cbn [forallb] in Hevs. apply andb_true_iff in Hevs.
  destruct Hevs as [Hev Hevs]. apply negb_true_iff in Hev.
  destruct (step_while_processing ev ui Hev Hbusy)
    as (Hb & Hi & Hs & Hr & He).
  destruct (IH Hevs _ Hb) as (Hb' & Hi' & Hs' & Hr' & He').
  change (run sc toDataURL gc (ev :: evs) ui)
    with (run sc toDataURL gc evs (step sc toDataURL gc ev ui)).
  cbn zeta in *. rewrite Hi', Hs', Hr', Hi, Hs, Hr.
  repeat split; auto.
Qed.

(** The check of the controller is the check of the builder: a call that
    the controller makes has an image or a text. *)
Lemma started_call_has_input imageData s pending call :
  handleAnalysis_start imageData s = Awaiting pending call ->
  JS.truthy (call_image call) || JS.truthy (call_text call) = true.
Proof.
  unfold handleAnalysis_start.
  destruct (negb (JS.truthy imageData)
            && negb (JS.truthy (Some (JS.trim (textInput s))))) eqn:E;
    [discriminate|].
  intros H. injection H as _ <-. cbn [call_image call_text].
  unfold trimmedOrNull.
  destruct (JS.truthy imageData); [reflexivity|].
  destruct (JS.trim (textInput s)); [discriminate | reflexivity].
Qed.

End Page.

(** X11.  Requests are serialised: while the processing flag is set, no
    event other than the settling of the call in flight sends a request,
    replaces that call, changes the result or takes the flag down,
    whatever is clicked, typed or drawn. *)
Theorem no_second_request_while_processing :
  forall (sc : Canvas2D.Context2D -> N -> N -> bool)
         (toDataURL : Canvas2D.Bitmap -> string -> Q -> string)
         (gc : Request -> Outcome) (evs : list Event) (ui : UI),
    isProcessing (app ui) = true ->
    forallb (fun ev => negb (isSettle ev)) evs = true ->
    let ui' := run sc toDataURL gc evs ui in
    sent ui' = sent ui /\ inflight ui' = inflight ui
    /\ result (app ui') = result (app ui)
    /\ isProcessing (app ui') = true.
Proof.
  intros sc toDataURL gc evs ui Hbusy Hevs ui'.
  destruct (run_while_processing sc toDataURL gc evs Hevs ui Hbusy)
    as (Hb & Hi & Hs & Hr & _).
  repeat split; assumption.
Qed.

Lemma no_second_request_while_processing_witness :
  isProcessing (app pendingPage) = true
  /\ List.length (sent pendingPage) = 1%nat
  /\ sent (run Canvas2D.roundStroke encoder busyBackend
             [PressEnter; ClickGo; ChangeText "Phenol"; PressEnter;
              OnSurface (DrawingCanvas.PointerDown origin
                           (DrawingCanvas.MouseEvent 1 1));
              ClickIdentify]
             pendingPage)
     = sent pendingPage.
Proof.
  assert (H : isProcessing (app pendingPage) = true)
    by (vm_compute; reflexivity).
  split; [exact H|]. split; [vm_compute; reflexivity|].
  apply (no_second_request_while_processing Canvas2D.roundStroke encoder
           busyBackend
           [PressEnter; ClickGo; ChangeText "Phenol"; PressEnter;
            OnSurface (DrawingCanvas.PointerDown origin
                         (DrawingCanvas.MouseEvent 1 1));
            ClickIdentify]
           pendingPage H).
  reflexivity.
Defined.



(** What a call of the controller adds to the requests sent. *)
Lemma accepted_submission_sends_one_request_aux
  (gc : Request -> Outcome) (imageData : option string) (ui : UI)
  (pending : State) (call : Call) :
  handleAnalysis_start imageData (app ui) = Awaiting pending call ->
  sent (handleAnalysis gc imageData ui)
  = (sent ui
     ++ [buildRequest imageData (trimmedOrNull (textInput (app ui)))
           (level (app ui))])%list
  /\ inflight (handleAnalysis gc imageData ui) = Some call.
Proof.
  intros Hstart.
  pose proof (started_call_has_input _ _ _ _ Hstart) as Hin.
  destruct (AppFacts.handleAnalysis_start_pending _ _ _ _ Hstart) as [_ Hc].
  unfold handleAnalysis. rewrite Hstart. cbn [sent inflight].
  split; [|reflexivity].
  unfold analyze. rewrite (GeminiFacts.analyze_with_input _ _ _ _ Hin).
  rewrite Hc. reflexivity.
Qed.

(** X13.  Every call that the controller makes sends exactly one request,
    built from the image handed over, the text box trimmed (absent when
    blank) and the level selected at that moment: the check of the request
    builder never fires on a call of the controller. *)
Theorem accepted_submission_sends_one_request :
  forall (gc : Request -> Outcome) (imageData : option string) (ui : UI)
         (pending : State) (call : Call),
    handleAnalysis_start imageData (app ui) = Awaiting pending call ->
    sent (handleAnalysis gc imageData ui)
    = (sent ui
       ++ [buildRequest imageData (trimmedOrNull (textInput (app ui)))
             (level (app ui))])%list
    /\ inflight (handleAnalysis gc imageData ui) = Some call.
Proof.
  intros gc imageData ui pending call Hstart.
  exact (accepted_submission_sends_one_request_aux gc imageData ui pending
           call Hstart).
Qed.

Lemma accepted_submission_sends_one_request_witness :
  handleAnalysis_start None (app typedPage)
  = Awaiting
      (setResult None (setError None (setIsProcessing true (app typedPage))))
      {| call_image := None; call_text := Some "Benzene";
         call_level := BOARD_LEVEL |}
  /\ sent (handleAnalysis busyBackend None typedPage)
     = [buildRequest None (Some "Benzene") BOARD_LEVEL].
Proof.
  assert (Hstart :
    handleAnalysis_start None (app typedPage)
    = Awaiting
        (setResult None (setError None (setIsProcessing true (app typedPage))))
        {| call_image := None; call_text := Some "Benzene";
           call_level := BOARD_LEVEL |})
    by (vm_compute; reflexivity).
  split; [exact Hstart|].
  exact (proj1 (accepted_submission_sends_one_request busyBackend None
                  typedPage _ _ Hstart)).
Defined.

(** X14.  Typing in the text box leaves no error on display, whatever was
    shown before, stores the text as typed, and touches neither the result
    nor the flag; dismissing the banner removes the error and nothing
    else. *)
Theorem typing_and_dismissing_clear_the_error :
  forall (sc : Canvas2D.Context2D -> N -> N -> bool)
         (toDataURL : Canvas2D.Bitmap -> string -> Q -> string)
         (gc : Request -> Outcome) (value : string) (ui : UI),
    let typed := step sc toDataURL gc (ChangeText value) ui in
    let dismissed := step sc toDataURL gc Dismiss ui in
    (showsError (app typed) = false
     /\ textInput (app typed) = value
     /\ result (app typed) = result (app ui)
     /\ isProcessing (app typed) = isProcessing (app ui)
     /\ sent typed = sent ui)
    /\ dismissed
       = {| app := setError None (app ui); surface := surface ui;
            inflight := inflight ui; sent := sent ui |}.
Proof.
  intros sc toDataURL gc value ui typed dismissed.
  split; [|reflexivity].
  unfold typed. cbn [step app sent].
  destruct (showsError (app ui)) eqn:E.
  - repeat split.
  - repeat split. exact E.
Qed.

(** X15.  With no still and a text box that is blank once trimmed, a
    submission by the Enter key sets the message of the controller, sends
    nothing, starts no call and keeps the result on display; the Go button
    is disabled and does nothing. *)
Theorem blank_submission_only_sets_error :
  forall (sc : Canvas2D.Context2D -> N -> N -> bool)
         (toDataURL : Canvas2D.Bitmap -> string -> Q -> string)
         (gc : Request -> Outcome) (ui : UI),
    isProcessing (app ui) = false ->
    JS.trim (textInput (app ui)) = EmptyString ->
    step sc toDataURL gc PressEnter ui
    = {| app := setError (Some "Please draw a structure or enter a name.")
                  (app ui);
         surface := surface ui; inflight := inflight ui; sent := sent ui |}
    /\ step sc toDataURL gc ClickGo ui = ui.
Proof.
  intros sc toDataURL gc ui Hidle Hblank. cbn [step].
  rewrite Hidle, Hblank. cbn [negb orb JS.truthy].
  split; [|reflexivity].
  unfold handleAnalysis, handleAnalysis_start. rewrite Hblank. reflexivity.
Qed.

Lemma blank_submission_only_sets_error_witness :
  isProcessing (app (page [ChangeText "   "])) = false
  /\ JS.trim (textInput (app (page [ChangeText "   "]))) = EmptyString
  /\ error (app (step Canvas2D.roundStroke encoder busyBackend PressEnter
                   (page [ChangeText "   "])))
     = Some "Please draw a structure or enter a name."
  /\ sent (step Canvas2D.roundStroke encoder busyBackend PressEnter
             (page [ChangeText "   "])) = [].
Proof.
  assert (H1 : isProcessing (app (page [ChangeText "   "])) = false)
    by (vm_compute; reflexivity).
  assert (H2 : JS.trim (textInput (app (page [ChangeText "   "])))
               = EmptyString)
    by (vm_compute; reflexivity).
  destruct (blank_submission_only_sets_error Canvas2D.roundStroke encoder
              busyBackend (page [ChangeText "   "]) H1 H2) as [E _].
  split; [exact H1|]. split; [exact H2|].
  rewrite E. split; reflexivity.
Defined.

(** X16.  Pressing Identify on a drawn surface, while nothing is pending
    and the encoder gives a still that is not empty, starts an analysis of
    that still with the text box trimmed: the flag goes up, result and
    error are emptied, and the one request sent begins with the image
    part. *)
Theorem identify_sends_the_still :
  forall (sc : Canvas2D.Context2D -> N -> N -> bool)
         (toDataURL : Canvas2D.Bitmap -> string -> Q -> string)
         (gc : Request -> Outcome) (ui : UI) (a : ascii) (rest : string),
    isProcessing (app ui) = false ->
    DrawingCanvas.hasDrawn (surface ui) = true ->
    toDataURL (DrawingCanvas.bitmap (DrawingCanvas.canvas (surface ui)))
      "image/jpeg" (7 # 10)%Q = String a rest ->
    let ui' := step sc toDataURL gc ClickIdentify ui in
    let query := trimmedOrNull (textInput (app ui)) in
    isProcessing (app ui') = true
    /\ result (app ui') = None /\ error (app ui') = None
    /\ sent ui'
       = (sent ui
          ++ [buildRequest (Some (String a rest)) query (level (app ui))])%list
    /\ parts (buildRequest (Some (String a rest)) query (level (app ui)))
       = [ inlineData (stripDataUrl (String a rest))
             (mimeTypeOf (String a rest));
           text (promptText (Some (String a rest)) query (level (app ui))) ].
Proof.
  intros sc toDataURL gc ui a rest Hidle Hdrawn Hurl ui' query.
  assert (Hcap : DrawingCanvas.handleCapture toDataURL (surface ui)
                 = Some (String a rest)).
  { unfold DrawingCanvas.handleCapture. rewrite Hdrawn, Hurl. reflexivity. }
  assert (Hstart :
    handleAnalysis_start (Some (String a rest)) (app ui)
    = Awaiting (setResult None (setError None (setIsProcessing true (app ui))))
        {| call_image := Some (String a rest); call_text := query;
           call_level := level (app ui) |})
    by reflexivity.
  assert (E : ui' = handleAnalysis gc (Some (String a rest)) ui).
  { unfold ui'. cbn [step]. rewrite Hidle, Hdrawn, Hcap. reflexivity. }
  destruct (accepted_submission_sends_one_request_aux gc _ ui _ _ Hstart)
    as [Hsent _].
  rewrite E. unfold handleAnalysis at 1 2 3. rewrite Hstart.
  cbn [app result error isProcessing setResult setError setIsProcessing].
  repeat split; try exact Hsent.
Qed.

Lemma identify_sends_the_still_witness :
  isProcessing (app drawnPage) = false
  /\ DrawingCanvas.hasDrawn (surface drawnPage) = true
  /\ sent (step Canvas2D.roundStroke encoder busyBackend ClickIdentify
             drawnPage)
     = [buildRequest (Some still) None BOARD_LEVEL].
Proof.
  assert (H1 : isProcessing (app drawnPage) = false)
    by (vm_compute; reflexivity).
  assert (H2 : DrawingCanvas.hasDrawn (surface drawnPage) = true)
    by (vm_compute; reflexivity).
  destruct (identify_sends_the_still Canvas2D.roundStroke encoder busyBackend
              drawnPage "d" "ata:image/jpeg;base64,/9j/4AAQSkZJRgABAQ"
              H1 H2 eq_refl) as (_ & _ & _ & Hsent & _).
  split; [exact H1|]. split; [exact H2|]. exact Hsent.
Defined.

End PageFacts.

(* ===================================================================== *)
(** ** More on the exported document                                      *)
(* ===================================================================== *)

Module ExportFacts.

Import ResultCard ResultCardFacts ResultCardFile Predicates MoreExamples.

Local Open Scope list_scope.
Local Open Scope Q_scope.

Lemma laidPages_length (imgHeight : Q) (n : nat) :
  forall heightLeft, List.length (laidPages imgHeight heightLeft n) = n.
Proof.
  induction n as [|n IH]; intros heightLeft; [reflexivity|].
  cbn [laidPages List.length]. rewrite IH. reflexivity.
Qed.

Lemma laidPages_placement (imgHeight : Q) (n : nat) :
  forall (heightLeft : Q) (k : nat),
    (k < n)%nat ->
    exists p : Placement,
      nth_error (laidPages imgHeight heightLeft n) k = Some [p]
      /\ y p == heightLeft - pageHeight * Qn k - imgHeight
      /\ w p = imgWidth /\ h p = imgHeight.
Proof.
  induction n as [|n IH]; intros heightLeft k Hk; [lia|].
  destruct k as [|k]; cbn [laidPages nth_error].
  - eexists. split; [reflexivity|]. cbn [y w h].
    split; [|split; reflexivity]. change (Qn 0) with 0. lra.
  - destruct (IH (heightLeft - pageHeight) k ltac:(lia))
      as (p & Hp & Hy & Hw & Hh).
    exists p. split; [exact Hp|]. split; [|split; assumption].
    rewrite Hy, Qn_S. lra.
Qed.

Lemma Qn_nonneg (n : nat) : 0 <= Qn n.
Proof.
  unfold Qn. change 0 with (inject_Z 0). rewrite <- Zle_Qle. lia.
Qed.

(** The height of the image on the page, for a canvas with a width. *)
Lemma imgHeight_bounds (canvasWidth canvasHeight : Z) :
  (0 < canvasWidth)%Z -> (0 <= canvasHeight)%Z ->
  let imgHeight :=
    (inject_Z canvasHeight * imgWidth) / inject_Z canvasWidth in
  0 <= imgHeight /\ imgHeight <= imgWidth * inject_Z canvasHeight.
Proof.
  intros Hw Hh imgHeight. unfold imgHeight, imgWidth.
  assert (Hc : 1 <= inject_Z canvasWidth).
  { change 1 with (inject_Z 1). rewrite <- Zle_Qle. lia. }
  assert (Hq : 0 <= inject_Z canvasHeight).
  { change 0 with (inject_Z 0). rewrite <- Zle_Qle. lia. }
  split.
  - apply Qle_shift_div_l; lra.
  - apply Qle_shift_div_r; [lra|]. nra.
Qed.

(** The shape of the document: with fuel from some point on, the first
    page and [n] laid pages, [n] being the number of whole page heights in
    the height of the image. *)
Lemma export_structure (canvasWidth canvasHeight : Z) :
  (0 < canvasWidth)%Z -> (0 <= canvasHeight)%Z ->
  let imgHeight :=
    (inject_Z canvasHeight * imgWidth) / inject_Z canvasWidth in
  exists (fuel n : nat),
    (forall fuel', (fuel <= fuel')%nat ->
       handleDownloadPDF fuel' canvasWidth canvasHeight
       = Some ([{| y := 0; w := imgWidth; h := imgHeight |}]
               :: laidPages imgHeight (imgHeight - pageHeight) n))
    /\ pageHeight * Qn n <= imgHeight
    /\ imgHeight < pageHeight * Qn (S n).
Proof.
  intros Hw Hh imgHeight.
  destruct (imgHeight_bounds canvasWidth canvasHeight Hw Hh) as [H0 Hmax].
  fold imgHeight in H0, Hmax.
  assert (Hfuel : imgHeight - pageHeight
                  < pageHeight * Qn (Z.to_nat canvasHeight)).
  { unfold Qn. rewrite Z2Nat.id by exact Hh.
    assert (Hq : 0 <= inject_Z canvasHeight).
    { change 0 with (inject_Z 0). rewrite <- Zle_Qle. lia. }
    unfold pageHeight, imgWidth in *. lra. }
  destruct (paginate_pages (Z.to_nat canvasHeight) canvasWidth canvasHeight
              Hfuel) as (n & Hrun & Hend & Hbefore).
  fold imgHeight in Hrun, Hend, Hbefore.
  exists (Z.to_nat canvasHeight), n. split; [|split].
  - intros fuel' Hle. unfold handleDownloadPDF in *.
    apply (addPages_more_fuel _ _ _ _ _ Hrun). exact Hle.
  - destruct n as [|n].
    + change (Qn 0) with 0. unfold pageHeight. lra.
    + apply Hbefore. lia.
  - exact Hend.
Qed.

(** X17.  The export of a rendered canvas that has a width always ends:
    from some amount of fuel on the loop gives the same document, which has
    one page more than there are whole page heights of 297 mm in the height
    of the image at a width of 210 mm. *)
Theorem export_ends_with_one_page_per_page_height :
  forall canvasWidth canvasHeight : Z,
    (0 < canvasWidth)%Z -> (0 <= canvasHeight)%Z ->
    let imgHeight :=
      (inject_Z canvasHeight * imgWidth) / inject_Z canvasWidth in
    exists (fuel n : nat) (pages : Document),
      (forall fuel', (fuel <= fuel')%nat ->
         handleDownloadPDF fuel' canvasWidth canvasHeight = Some pages)
      /\ List.length pages = S n
      /\ pageHeight * Qn n <= imgHeight
      /\ imgHeight < pageHeight * Qn (S n).
Proof.
  intros canvasWidth canvasHeight Hw Hh imgHeight.
  destruct (export_structure canvasWidth canvasHeight Hw Hh)
    as (fuel & n & Hrun & Hlow & Hhigh).
  fold imgHeight in Hrun, Hlow, Hhigh.
  exists fuel, n. eexists. split; [exact Hrun|]. split; [|split; assumption].
  cbn [List.length]. rewrite laidPages_length. reflexivity.
Qed.

Lemma export_ends_with_one_page_per_page_height_witness :
  (0 < 1600)%Z /\ (0 <= 3000)%Z
  /\ exists (fuel n : nat) (pages : Document),
       (forall fuel', (fuel <= fuel')%nat ->
          handleDownloadPDF fuel' 1600 3000 = Some pages)
       /\ List.length pages = S n
       /\ pageHeight * Qn n <= (inject_Z 3000 * imgWidth) / inject_Z 1600
       /\ (inject_Z 3000 * imgWidth) / inject_Z 1600 < pageHeight * Qn (S n).
Proof.
  split; [reflexivity|]. split; [discriminate|].
  apply (export_ends_with_one_page_per_page_height 1600 3000);
    [reflexivity | discriminate].
Defined.

(** X18.  Every page of the document holds the whole image once, at its
    full size, placed one page height higher on each page than on the page
    before: page [k] has it [k] times 297 mm above its top, so that
    successive pages show successive bands of the image. *)
Theorem each_page_holds_the_image_one_page_higher :
  forall canvasWidth canvasHeight : Z,
    (0 < canvasWidth)%Z -> (0 <= canvasHeight)%Z ->
    let imgHeight :=
      (inject_Z canvasHeight * imgWidth) / inject_Z canvasWidth in
    exists (fuel : nat) (pages : Document),
      handleDownloadPDF fuel canvasWidth canvasHeight = Some pages
      /\ forall k : nat, (k < List.length pages)%nat ->
           exists p : Placement,
             nth_error pages k = Some [p]
             /\ y p == - (pageHeight * Qn k)
             /\ w p = imgWidth /\ h p = imgHeight.
Proof.
  intros canvasWidth canvasHeight Hw Hh imgHeight.
  destruct (export_structure canvasWidth canvasHeight Hw Hh)
    as (fuel & n & Hrun & _ & _).
  fold imgHeight in Hrun.
  exists fuel. eexists. split; [apply Hrun; lia|].
  intros k Hk. cbn [List.length] in Hk. rewrite laidPages_length in Hk.
  destruct k as [|k].
  - eexists. split; [reflexivity|]. cbn [y w h].
    split; [|split; reflexivity]. change (Qn 0) with 0. lra.
  - destruct (laidPages_placement imgHeight n (imgHeight - pageHeight) k
                ltac:(lia)) as (p & Hp & Hy & Hpw & Hph).
    exists p. split; [exact Hp|]. split; [|split; assumption].
    rewrite Hy, Qn_S. lra.
Qed.

Lemma each_page_holds_the_image_one_page_higher_witness :
  (0 < 1600)%Z /\ (0 <= 3000)%Z
  /\ exists (fuel : nat) (pages : Document),
       handleDownloadPDF fuel 1600 3000 = Some pages
       /\ forall k : nat, (k < List.length pages)%nat ->
            exists p : Placement,
              nth_error pages k = Some [p]
              /\ y p == - (pageHeight * Qn k)
              /\ w p = imgWidth
              /\ h p = (inject_Z 3000 * imgWidth) / inject_Z 1600.
Proof.
  split; [reflexivity|]. split; [discriminate|].
  apply (each_page_holds_the_image_one_page_higher 1600 3000);
    [reflexivity | discriminate].
Defined.

(** X19.  Every page but the last shows a band of the image, and the last
    page shows one exactly when the height of the image is more than the
    page heights before it: only the last page can be blank, and it is
    blank exactly when the image is a whole number of page heights high
    (or has no height at all). *)
Theorem only_the_last_page_can_be_blank :
  forall canvasWidth canvasHeight : Z,
    (0 < canvasWidth)%Z -> (0 <= canvasHeight)%Z ->
    let imgHeight :=
      (inject_Z canvasHeight * imgWidth) / inject_Z canvasWidth in
    exists (fuel : nat) (pages : Document),
      handleDownloadPDF fuel canvasWidth canvasHeight = Some pages
      /\ forall (k : nat) (p : Placement),
           nth_error pages k = Some [p] ->
           ((S k < List.length pages)%nat -> showsImage p = true)
           /\ (S k = List.length pages ->
               (showsImage p = true <-> pageHeight * Qn k < imgHeight)).
Proof.
  intros canvasWidth canvasHeight Hw Hh imgHeight.
  destruct (export_structure canvasWidth canvasHeight Hw Hh)
    as (fuel & n & Hrun & Hlow & Hhigh).
  fold imgHeight in Hrun, Hlow, Hhigh.
  exists fuel, ([{| y := 0; w := imgWidth; h := imgHeight |}]
                :: laidPages imgHeight (imgHeight - pageHeight) n).
  split; [apply Hrun; lia|].
  intros k p Hp.
  assert (Hk : (k <= n)%nat).
  { assert (Hsome : nth_error
      ([{| y := 0; w := imgWidth; h := imgHeight |}]
       :: laidPages imgHeight (imgHeight - pageHeight) n) k <> None)
      by (intros E; pose proof (eq_trans (eq_sym E) Hp) as F;
          discriminate F).
    apply nth_error_Some in Hsome. cbn [List.length] in Hsome.
    rewrite laidPages_length in Hsome. lia. }
  assert (Hplace : y p == - (pageHeight * Qn k) /\ h p = imgHeight).
  { destruct k as [|k].
    - cbn [nth_error] in Hp. injection Hp as <-. cbn [y h].
      split; [|reflexivity]. change (Qn 0) with 0. lra.
    - cbn [nth_error] in Hp.
      destruct (laidPages_placement imgHeight n (imgHeight - pageHeight) k
                  ltac:(lia)) as (p' & Hp' & Hy & _ & Hph).
      rewrite Hp in Hp'. injection Hp' as <-.
      split; [|exact Hph]. rewrite Hy, Qn_S. lra. }
  destruct Hplace as [Hy Hph].
  assert (Hshow : showsImage p = true <-> pageHeight * Qn k < imgHeight).
  { rewrite showsImage_iff, Hph, Hy.
    pose proof (Qn_nonneg k) as Hk0. unfold pageHeight in *.
    split; [intros (_ & A & _); lra | intros A; repeat split; lra]. }
  cbn [List.length]. rewrite laidPages_length. split.
  - intros Hnotlast. apply Hshow.
    assert (Hle : pageHeight * Qn (S k) <= pageHeight * Qn n).
    { unfold pageHeight, Qn. apply Qmult_le_l; [lra|].
      rewrite <- Zle_Qle. lia. }
    rewrite Qn_S in Hle. unfold pageHeight in *. lra.
  - intros _. exact Hshow.
Qed.

Lemma only_the_last_page_can_be_blank_witness :
  (0 < 1600)%Z /\ (0 <= 15840)%Z
  /\ exists (fuel : nat) (pages : Document),
       handleDownloadPDF fuel 1600 15840 = Some pages
       /\ forall (k : nat) (p : Placement),
            nth_error pages k = Some [p] ->
            ((S k < List.length pages)%nat -> showsImage p = true)
            /\ (S k = List.length pages ->
                (showsImage p = true
                 <-> pageHeight * Qn k
                     < (inject_Z 15840 * imgWidth) / inject_Z 1600)).
Proof.
  split; [reflexivity|]. split; [discriminate|].
  apply (only_the_last_page_can_be_blank 1600 15840);
    [reflexivity | discriminate].
Defined.

End ExportFacts.

(* ===================================================================== *)
(** ** The name of the saved file                                         *)
(* ===================================================================== *)

Module FileFacts.

Import ResultCardFile Predicates Examples MoreExamples.



Lemma find_nothing {A} (f : A -> bool) (l : list A) :
  (forall x, In x l -> f x = false) -> find f l = None.
Proof.
  induction l as [|x l IH]; intros H; [reflexivity|].
  cbn [find]. rewrite (H x (or_introl eq_refl)).
  apply IH. intros z Hz. apply H. right. exact Hz.
Qed.







Lemma replaceRuns_clean (fuel : nat) :
  forall s, (String.length s <= fuel)%nat -> spaceFree s ->
            replaceRuns fuel false s = s.
Proof.
  induction fuel as [|fuel IH]; intros s Hlen Hs.
  - destruct s; [reflexivity | cbn in Hlen; lia].
  - cbn [replaceRuns].
    assert (Hnone : JS.leadingSpace s = None).
    { unfold JS.leadingSpace. rewrite find_nothing; [reflexivity|].
      intros w Hw. specialize (Hs w Hw).
      destruct s; cbn [JS.includes] in Hs;
        apply orb_false_iff in Hs; apply Hs. }
    rewrite Hnone. destruct s as [|c r]; [reflexivity|].
    rewrite IH; [reflexivity | cbn in Hlen; lia|].
    intros w Hw. specialize (Hs w Hw). cbn [JS.includes] in Hs.
    apply orb_false_iff in Hs. apply Hs.
Qed.

(** X21.  A name without white space is kept as it is: the file is the
    name followed by [_Analysis.pdf].  A result without a name, or whose
    name is not a string, gives no file name (the exception that ends the
    export in the alert). *)
Theorem clean_name_is_kept :
  forall (data : ChemicalData),
    (forall name : string,
       JSON.field "name" data = Some (JSON.Str name) ->
       spaceFree name ->
       filename data = Some (name ++ "_Analysis.pdf"))
    /\ ((forall name : string,
           JSON.field "name" data <> Some (JSON.Str name)) ->
        filename data = None).
Proof.
  intros data. split.
  - intros name Hname Hclean. unfold filename. rewrite Hname.
    unfold replaceSpaces. rewrite replaceRuns_clean;
      [reflexivity | lia | exact Hclean].
  - intros Hnone. unfold filename.
    destruct (JSON.field "name" data) as [[| | |name| |]|]; try reflexivity.
    exfalso. exact (Hnone name eq_refl).
Qed.

Lemma clean_name_is_kept_witness :
  JSON.field "name" benzeneData = Some (JSON.Str "Benzene")
  /\ spaceFree "Benzene"
  /\ filename benzeneData = Some "Benzene_Analysis.pdf"
  /\ filename (JSON.Object []) = None.
Proof.
  assert (Hclean : spaceFree "Benzene").
  { intros w Hw. cbn in Hw.
    repeat (destruct Hw as [<-|Hw]; [reflexivity|]). contradiction. }
  split; [reflexivity|]. split; [exact Hclean|]. split.
  - exact (proj1 (clean_name_is_kept benzeneData) "Benzene" eq_refl Hclean).
  - apply (proj2 (clean_name_is_kept (JSON.Object []))).
    intros name. discriminate.
Defined.

End FileFacts.

(* ===================================================================== *)
(** ** The theme                                                          *)
(* ===================================================================== *)

Module ThemeFacts.

Import Theme MoreExamples.

(** After a render, what is stored and the class of the root element
    agree with the flag. *)
Lemma effect_in_sync (mode : bool) (b : Browser) :
  initialDarkMode (Some (effect mode b)) = mode
  /\ darkClass (effect mode b) = mode
  /\ prefersDark (effect mode b) = prefersDark b.
Proof. destruct mode; repeat split. Qed.

(** X22.  The theme survives a reload: after mounting in any browser and
    toggling any number of times, a fresh initialisation from what is
    stored gives the mode in use, whatever the system prefers; the class
    [dark] of the root element is on exactly in dark mode; and the mode is
    the initial one when the number of toggles is even, the other one when
    it is odd. *)
Theorem theme_survives_reload :
  forall (b : Browser) (n : nat),
    let s := toggles n (mount b) in
    initialDarkMode (Some (browser s)) = isDarkMode s
    /\ darkClass (browser s) = isDarkMode s
    /\ isDarkMode s = xorb (initialDarkMode (Some b)) (Nat.odd n).
Proof.
  intros b n.
  assert (H : forall s : State,
    initialDarkMode (Some (browser s)) = isDarkMode s
    /\ darkClass (browser s) = isDarkMode s ->
    let s' := toggles n s in
    initialDarkMode (Some (browser s')) = isDarkMode s'
    /\ darkClass (browser s') = isDarkMode s'
    /\ isDarkMode s' = xorb (isDarkMode s) (Nat.odd n)).
  { induction n as [|n IH]; intros s [H1 H2].
    - cbn [toggles Nat.odd]. repeat split; try assumption.
      destruct (isDarkMode s); reflexivity.
    - cbn [toggles].
      destruct (IH (toggleTheme s)) as (A & B & C).
      { unfold toggleTheme. cbn [browser isDarkMode].
        destruct (effect_in_sync (negb (isDarkMode s)) (browser s))
          as (E1 & E2 & _). split; assumption. }
      cbn zeta. split; [exact A|]. split; [exact B|].
      rewrite C. unfold toggleTheme. cbn [isDarkMode].
      rewrite Nat.odd_succ, <- Nat.negb_odd.
      destruct (isDarkMode s), (Nat.odd n); reflexivity. }
  apply H. unfold mount. cbn [browser isDarkMode].
  destruct (effect_in_sync (initialDarkMode (Some b)) b) as (E1 & E2 & _).
  split; assumption.
Qed.

End ThemeFacts.
